(** * Dipole simulator: the controller of [dipole_sim/app.py]

    A shallow embedding of the [App] class: its state dictionary, the part of
    the widget tree the handlers read and write, the marker handles, and the
    four event handlers (slice click, amplitude change, mode change, reset).

    - Coordinates are Python numbers (the ints of [_init_state], the floats of
      the mouse events).  The controller only stores and compares them, so a
      coordinate is modelled by its exact rational value and [==] by [Qeq_bool].
    - The dipole amplitude is computed on by the controller itself
      ([50e-9], [change['new'] * 1e-9], [... * 1e9]); it is an IEEE binary64
      float, as in Python.
    - The collaborators imported from the sibling modules ([callbacks],
      [dipole], [evoked_field], [slice], [cursor]) are not part of [app.py];
      each one is modelled from the specification and logs its call. *)

From Stdlib Require Import ZArith QArith Qround Floats String List Bool Lia.
From Stdlib Require Import DecimalString.
Import ListNotations.

Local Open Scope string_scope.
Local Open Scope Z_scope.

(* Decimal float literals denote the nearest binary64 value, as in Python. *)
Set Warnings "-inexact-float".

(** ** Python values *)

(** The keys ['x'], ['y'], ['z'], in the insertion order of the dicts. *)
Inductive Axis : Set := AxX | AxY | AxZ.

Definition Axis_eqb (a b : Axis) : bool :=
  match a, b with
  | AxX, AxX | AxY, AxY | AxZ, AxZ => true
  | _, _ => false
  end.

(** [dict(x=..., y=..., z=...)] *)
Record Dict3 (A : Type) : Type := mkDict3 { dx : A; dy : A; dz : A }.
Arguments mkDict3 {A} _ _ _.
Arguments dx {A} _.
Arguments dy {A} _.
Arguments dz {A} _.

(** [d[axis]] *)
Definition getitem {A : Type} (d : Dict3 A) (axis : Axis) : A :=
  match axis with AxX => dx d | AxY => dy d | AxZ => dz d end.

(** [d[axis] = v] *)
Definition setitem {A : Type} (d : Dict3 A) (axis : Axis) (v : A) : Dict3 A :=
  match axis with
  | AxX => mkDict3 v (dy d) (dz d)
  | AxY => mkDict3 (dx d) v (dz d)
  | AxZ => mkDict3 (dx d) (dy d) v
  end.

(** [v is not None] *)
Definition is_not_None {A : Type} (v : option A) : bool :=
  match v with Some _ => true | None => false end.

(** [a == b] on values that are [None] or a number. *)
Definition py_eq (a b : option Q) : bool :=
  match a, b with
  | None, None => true
  | Some p, Some q => Qeq_bool p q
  | _, _ => false
  end.

(** [d == e] on two dicts with the keys x, y, z. *)
Definition dict_eq (d e : Dict3 (option Q)) : bool :=
  py_eq (dx d) (dx e) && py_eq (dy d) (dy e) && py_eq (dz d) (dz e).

(** [d != e] *)
Definition dict_ne (d e : Dict3 (option Q)) : bool := negb (dict_eq d e).

(** [round(v)]: Python 3 rounds halves to the even neighbour. *)
Definition py_round (v : Q) : Z :=
  let f := Qfloor v in
  match Qcompare (v - inject_Z f) (1 # 2) with
  | Lt => f
  | Gt => f + 1
  | Eq => if Z.even f then f else f + 1
  end.

(** [str(n)] for an int. *)
Definition py_str (n : Z) : string := NilZero.string_of_int (Z.to_int n).

(** [float(n)] for an int, correctly rounded (to nearest, ties to even).
    Python raises OverflowError where this gives an infinity, far outside
    the slider's range. *)
Definition float_of_int (n : Z) : float :=
  SF2Prim (binary_normalize prec emax n 0 false).

(** [int(f)]: truncation towards zero; [None] where Python raises (nan and
    the infinities). *)
Definition int_of_float (f : float) : option Z :=
  match Prim2SF f with
  | S754_zero _ => Some 0
  | S754_finite s m e =>
      let a := if 0 <=? e then Zpos m * 2 ^ e else Zpos m / 2 ^ (- e) in
      Some (if s then - a else a)
  | _ => None
  end.

(** ** The state dictionary of [_init_state] *)

(** [dict(val=..., min=..., max=...)] *)
Record SliceCoord : Type := mkSliceCoord { sc_val : Q; sc_min : Q; sc_max : Q }.

Record LabelText : Type := mkLabelText {
  lt_x : string;
  lt_y : string;
  lt_z : string;
  topomap_mag : string;
  topomap_grad : string;
  topomap_eeg : string
}.

(** An arrow patch on the slice view [arrow_view], from the dipole position to
    the dipole orientation point. *)
Record Arrow : Type := mkArrow {
  arrow_view : Axis;
  arrow_tail : Dict3 (option Q);
  arrow_head : Dict3 (option Q)
}.

Record State : Type := mkState {
  slice_coord : Dict3 SliceCoord;
  crosshair_pos : Dict3 Q;
  dipole_pos : Dict3 (option Q);
  dipole_ori : Dict3 (option Q);
  dipole_amplitude : float;
  label_text : LabelText;
  dipole_arrows : list Arrow;
  mode : string;
  updating : bool
}.

(** ** Widgets, markers and the log of collaborator calls *)

(** [IntSlider(value=..., min=5, max=100, step=5)] *)
Record IntSlider : Type := mkIntSlider { value : Z; disabled : bool }.

Definition slider_min : Z := 5.
Definition slider_max : Z := 100.

(** The labels the handlers write, the amplitude slider, and the arrows
    currently drawn on the slice figures. *)
Record Widget : Type := mkWidget {
  label_updating : string;
  label_dipole_pos : string;
  label_dipole_ori : string;
  amplitude_slider : IntSlider;
  fig_arrows : list Arrow
}.

(** A marker handle: the view it is drawn on and the point it marks. *)
Record Marker : Type := mkMarker {
  marker_view : Axis;
  marker_at : Dict3 (option Q)
}.

Record Markers : Type := mkMarkers {
  m_dipole_pos : Dict3 (option Marker);
  m_dipole_ori : Dict3 (option Marker)
}.

(** The channel types of the sensor plots. *)
Inductive ChType : Set := mag | grad | eeg.

(** The functions [app.py] imports from its sibling modules, as they appear
    in the log of calls. *)
Inductive Call : Set :=
| c_handle_click_in_slice_browser_mode
| c_handle_click_in_set_dipole_pos_mode
| c_handle_click_in_set_dipole_ori_mode
| c_plot_dipole_pos_marker
| c_plot_dipole_ori_marker
| c_draw_dipole_arrows
| c_remove_dipole_arrows
| c_remove_dipole_pos_markers
| c_remove_dipole_ori_markers
| c_plot_evoked
| c_reset_topomaps
| c_plot_sensors (ch_type : ChType)
| c_plot_slice (axis : Axis)
| c_enable_crosshair_cursor.

Definition is_plot_evoked (c : Call) : bool :=
  match c with c_plot_evoked => true | _ => false end.

(** One collaborator call, with [self._state] as it was when the call was
    made. *)
Record Entry : Type := mkEntry { call : Call; at_state : State }.

(** The controller object and what it owns.  [output] is the shared [Output]
    widget: the calls whose printed output it currently shows; [capturing]
    is true inside its [with] block.  [trace] is the history of all
    collaborator calls. *)
Record World : Type := mkWorld {
  _state : State;
  _widget : Widget;
  _markers : Markers;
  output : list Call;
  capturing : bool;
  trace : list Entry
}.

(** *** Field updates *)

Definition set_slice_coord (v : Dict3 SliceCoord) (s : State) : State :=
  mkState v (crosshair_pos s) (dipole_pos s) (dipole_ori s)
    (dipole_amplitude s) (label_text s) (dipole_arrows s) (mode s) (updating s).

Definition set_crosshair_pos (v : Dict3 Q) (s : State) : State :=
  mkState (slice_coord s) v (dipole_pos s) (dipole_ori s)
    (dipole_amplitude s) (label_text s) (dipole_arrows s) (mode s) (updating s).

Definition set_dipole_pos (v : Dict3 (option Q)) (s : State) : State :=
  mkState (slice_coord s) (crosshair_pos s) v (dipole_ori s)
    (dipole_amplitude s) (label_text s) (dipole_arrows s) (mode s) (updating s).

Definition set_dipole_ori (v : Dict3 (option Q)) (s : State) : State :=
  mkState (slice_coord s) (crosshair_pos s) (dipole_pos s) v
    (dipole_amplitude s) (label_text s) (dipole_arrows s) (mode s) (updating s).

Definition set_dipole_amplitude (v : float) (s : State) : State :=
  mkState (slice_coord s) (crosshair_pos s) (dipole_pos s) (dipole_ori s)
    v (label_text s) (dipole_arrows s) (mode s) (updating s).

Definition set_mode (v : string) (s : State) : State :=
  mkState (slice_coord s) (crosshair_pos s) (dipole_pos s) (dipole_ori s)
    (dipole_amplitude s) (label_text s) (dipole_arrows s) v (updating s).

Definition set_updating (v : bool) (s : State) : State :=
  mkState (slice_coord s) (crosshair_pos s) (dipole_pos s) (dipole_ori s)
    (dipole_amplitude s) (label_text s) (dipole_arrows s) (mode s) v.

Definition set_val (v : Q) (c : SliceCoord) : SliceCoord :=
  mkSliceCoord v (sc_min c) (sc_max c).

Definition set_label_updating (v : string) (g : Widget) : Widget :=
  mkWidget v (label_dipole_pos g) (label_dipole_ori g) (amplitude_slider g)
    (fig_arrows g).

Definition set_label_dipole_pos (v : string) (g : Widget) : Widget :=
  mkWidget (label_updating g) v (label_dipole_ori g) (amplitude_slider g)
    (fig_arrows g).

Definition set_label_dipole_ori (v : string) (g : Widget) : Widget :=
  mkWidget (label_updating g) (label_dipole_pos g) v (amplitude_slider g)
    (fig_arrows g).

Definition set_amplitude_slider (v : IntSlider) (g : Widget) : Widget :=
  mkWidget (label_updating g) (label_dipole_pos g) (label_dipole_ori g) v
    (fig_arrows g).

Definition set_fig_arrows (v : list Arrow) (g : Widget) : Widget :=
  mkWidget (label_updating g) (label_dipole_pos g) (label_dipole_ori g)
    (amplitude_slider g) v.

Definition with_state (s : State) (w : World) : World :=
  mkWorld s (_widget w) (_markers w) (output w) (capturing w) (trace w).

Definition with_widget (g : Widget) (w : World) : World :=
  mkWorld (_state w) g (_markers w) (output w) (capturing w) (trace w).

Definition with_markers (m : Markers) (w : World) : World :=
  mkWorld (_state w) (_widget w) m (output w) (capturing w) (trace w).

Definition with_output (o : list Call) (c : bool) (w : World) : World :=
  mkWorld (_state w) (_widget w) (_markers w) o c (trace w).

(** A collaborator is entered: the call joins the history, and what it
    prints goes to the [Output] widget while that one is capturing. *)
Definition log (c : Call) (w : World) : World :=
  mkWorld (_state w) (_widget w) (_markers w)
    (if capturing w then output w ++ [c] else output w)
    (capturing w)
    (trace w ++ [mkEntry c (_state w)]).

(** [@output_widget.capture(clear_output=True)]: the widget is cleared, then
    the function runs inside the widget's [with] block. *)
Definition capture_clear_output (func : World -> World) (w : World) : World :=
  let w := with_output [] (capturing w) w in
  let w := with_output (output w) true w in
  let w := func w in
  with_output (output w) false w.

(** ** Mouse events *)

(** [matplotlib.backend_bases.MouseButton] *)
Inductive MouseButton : Set := LEFT | MIDDLE | RIGHT | BACK | FORWARD.

Definition MouseButton_eqb (a b : MouseButton) : bool :=
  match a, b with
  | LEFT, LEFT | MIDDLE, MIDDLE | RIGHT, RIGHT | BACK, BACK
  | FORWARD, FORWARD => true
  | _, _ => false
  end.

(** A figure object: one of [widget['fig'][axis]], or any other figure. *)
Inductive Figure : Set := slice_fig (axis : Axis) | other_fig (n : nat).

Definition Figure_is (a b : Figure) : bool :=
  match a, b with
  | slice_fig p, slice_fig q => Axis_eqb p q
  | other_fig n, other_fig m => Nat.eqb n m
  | _, _ => false
  end.

Record Axes : Set := mkAxes { figure : Figure }.

(** [xdata] and [ydata] are read only when [inaxes] is not [None]. *)
Record MouseEvent : Type := mkMouseEvent {
  button : MouseButton;
  inaxes : option Axes;
  xdata : Q;
  ydata : Q
}.

(** ** The collaborators of the sibling modules

    [app.py] passes them the mutable [widget], [markers] and [state] objects;
    each is a function on the world that logs its call. *)

Module slice.

(** Modelled from the spec: [slice.get_axis_names_from_slice] is not in
    [app.py].  A click lands "in one of three orthogonal planes"; the
    function names the two axes spanning the plane of the clicked slice
    view, the remaining axes in the order of [all_axes]. *)
Definition get_axis_names_from_slice (slice_view : Axis)
    (all_axes : list Axis) : Axis * Axis :=
  match filter (fun a => negb (Axis_eqb a slice_view)) all_axes with
  | x_idx :: y_idx :: _ => (x_idx, y_idx)
  | _ => (slice_view, slice_view)
  end.

(** Modelled from the spec: [slice.plot_slice] is not in [app.py].  It
    "renders" one of the "3 orthogonal MRI cross-sections"; rendering is
    opaque, the call is logged. *)
Definition plot_slice (axis : Axis) (pos : Q) (w : World) : World :=
  log (c_plot_slice axis) w.

End slice.

Module cursor.

(** Modelled from the spec: [cursor.enable_crosshair_cursor] is not in
    [app.py]; widget rendering is out of the spec's scope, the call is
    logged. *)
Definition enable_crosshair_cursor (w : World) : World :=
  log c_enable_crosshair_cursor w.

End cursor.

Module callbacks.

(** Modelled from the spec: [callbacks.handle_click_in_slice_browser_mode] is
    not in [app.py].  "browsing: updates the crosshair/slice position to the
    clicked location; does not touch dipole fields." *)
Definition handle_click_in_slice_browser_mode (x y : Q) (x_idx y_idx : Axis)
    (w : World) : World :=
  let w := log c_handle_click_in_slice_browser_mode w in
  let state := _state w in
  let sc := slice_coord state in
  let sc := setitem sc x_idx (set_val x (getitem sc x_idx)) in
  let sc := setitem sc y_idx (set_val y (getitem sc y_idx)) in
  let ch := crosshair_pos state in
  let ch := setitem ch x_idx x in
  let ch := setitem ch y_idx y in
  with_state (set_crosshair_pos ch (set_slice_coord sc state)) w.

(** Modelled from the spec: the 3-D point of a click, shared by the two
    dipole callbacks.  "resolves the clicked 2-D point (in one of three
    orthogonal planes) plus the third axis's current browse coordinate into
    a full 3-D point". *)
Definition resolve_point (state : State) (x_idx y_idx remaining_idx : Axis)
    (x y : Q) : Dict3 (option Q) :=
  let p := mkDict3 None None None in
  let p := setitem p remaining_idx
             (Some (sc_val (getitem (slice_coord state) remaining_idx))) in
  let p := setitem p x_idx (Some x) in
  setitem p y_idx (Some y).

(** Modelled from the spec: [callbacks.handle_click_in_set_dipole_pos_mode]
    is not in [app.py].  "settingPosition: resolves the clicked 2-D point
    ... into a full 3-D point; writes dipolePosition." *)
Definition handle_click_in_set_dipole_pos_mode (x_idx y_idx remaining_idx : Axis)
    (x y : Q) (w : World) : World :=
  let w := log c_handle_click_in_set_dipole_pos_mode w in
  let state := _state w in
  with_state
    (set_dipole_pos (resolve_point state x_idx y_idx remaining_idx x y) state) w.

(** Modelled from the spec: [callbacks.handle_click_in_set_dipole_ori_mode]
    is not in [app.py].  "settingOrientation: same resolution, writes
    dipoleOrientation." *)
Definition handle_click_in_set_dipole_ori_mode (x_idx y_idx remaining_idx : Axis)
    (x y : Q) (w : World) : World :=
  let w := log c_handle_click_in_set_dipole_ori_mode w in
  let state := _state w in
  with_state
    (set_dipole_ori (resolve_point state x_idx y_idx remaining_idx x y) state) w.

End callbacks.

Module dipole.

Definition all_views : list Axis := [AxX; AxY; AxZ].

Definition markers_at (p : Dict3 (option Q)) : Dict3 (option Marker) :=
  mkDict3 (Some (mkMarker AxX p)) (Some (mkMarker AxY p))
    (Some (mkMarker AxZ p)).

Definition no_markers : Dict3 (option Marker) := mkDict3 None None None.

(** Modelled from the spec: [dipole.plot_dipole_pos_marker] is not in
    [app.py].  The renderer "draws dipole position ... glyphs on the slice
    views"; the handles, "per slice axis", are "recreated whenever markers
    are redrawn". *)
Definition plot_dipole_pos_marker (w : World) : World :=
  let w := log c_plot_dipole_pos_marker w in
  with_markers
    (mkMarkers (markers_at (dipole_pos (_state w)))
       (m_dipole_ori (_markers w))) w.

(** Modelled from the spec: [dipole.plot_dipole_ori_marker] is not in
    [app.py]; as [plot_dipole_pos_marker], for the orientation glyphs. *)
Definition plot_dipole_ori_marker (w : World) : World :=
  let w := log c_plot_dipole_ori_marker w in
  with_markers
    (mkMarkers (m_dipole_pos (_markers w))
       (markers_at (dipole_ori (_state w)))) w.

(** Modelled from the spec: [dipole.draw_dipole_arrows] is not in [app.py].
    The arrows are glyphs on the three slice views, redrawn from the
    current position and orientation. *)
Definition draw_dipole_arrows (w : World) : World :=
  let w := log c_draw_dipole_arrows w in
  let state := _state w in
  with_widget
    (set_fig_arrows
       (map (fun v => mkArrow v (dipole_pos state) (dipole_ori state))
          all_views)
       (_widget w)) w.

(** Modelled from the spec: [dipole.remove_dipole_arrows] is not in
    [app.py].  Reset "clears all dipole markers/arrows"; this one takes the
    widget only and removes the arrows drawn on the figures. *)
Definition remove_dipole_arrows (w : World) : World :=
  let w := log c_remove_dipole_arrows w in
  with_widget (set_fig_arrows [] (_widget w)) w.

(** Modelled from the spec: [dipole.remove_dipole_pos_markers] is not in
    [app.py].  Reset "clears all marker handles": the position handles of
    the controller's [markers] become [None]. *)
Definition remove_dipole_pos_markers (w : World) : World :=
  let w := log c_remove_dipole_pos_markers w in
  with_markers (mkMarkers no_markers (m_dipole_ori (_markers w))) w.

(** Modelled from the spec: [dipole.remove_dipole_ori_markers] is not in
    [app.py]; as [remove_dipole_pos_markers], for the orientation handles. *)
Definition remove_dipole_ori_markers (w : World) : World :=
  let w := log c_remove_dipole_ori_markers w in
  with_markers (mkMarkers (m_dipole_pos (_markers w)) no_markers) w.

End dipole.

Module evoked_field.

(** Modelled from the spec: [evoked_field.plot_evoked] is not in [app.py].
    It is the field evaluation: it "invokes the external forward-model/topomap
    pipeline and refreshes the sensor plots"; the numerics and the rendering
    are opaque, the call is logged with the state it is given. *)
Definition plot_evoked (w : World) : World := log c_plot_evoked w.

(** Modelled from the spec: [evoked_field.plot_sensors] is not in [app.py];
    topomap rendering, logged. *)
Definition plot_sensors (ch_type : ChType) (w : World) : World :=
  log (c_plot_sensors ch_type) w.

(** Modelled from the spec: [evoked_field.reset_topomaps] is not in
    [app.py]; it "restores default sensor topomaps", logged. *)
Definition reset_topomaps (w : World) : World := log c_reset_topomaps w.

End evoked_field.

(** ** The controller: class [App] *)

Module App.

(** The readiness test the handlers share:
    [state['dipole_pos']['x'] is not None and
     state['dipole_ori']['x'] is not None and
     state['dipole_pos'] != state['dipole_ori']]. *)
Definition dipole_ready (state : State) : bool :=
  is_not_None (dx (dipole_pos state)) &&
  is_not_None (dx (dipole_ori state)) &&
  dict_ne (dipole_pos state) (dipole_ori state).

Definition _init_state : State :=
  let slice_coord :=
    mkDict3 (mkSliceCoord (inject_Z 0) (inject_Z (-60)) (inject_Z 60))
            (mkSliceCoord (inject_Z 0) (inject_Z (-70)) (inject_Z 70))
            (mkSliceCoord (inject_Z 0) (inject_Z (-20)) (inject_Z 60)) in
  mkState
    slice_coord
    (mkDict3 (inject_Z 0) (inject_Z 0) (inject_Z 0))
    (mkDict3 None None None)
    (mkDict3 None None None)
    50e-9%float
    (mkLabelText
       ("sagittal (x = " ++ py_str (py_round (sc_val (dx slice_coord))) ++ " mm)")
       ("coronal (y = " ++ py_str (py_round (sc_val (dy slice_coord))) ++ " mm)")
       ("axial (z = " ++ py_str (py_round (sc_val (dz slice_coord))) ++ " mm)")
       "Evoked magnetometer field"
       "Evoked gradiometer field"
       "Evoked EEG field")
    []
    "slice_browser"
    false.

(** The part of [_init_widget] the handlers use.  The slider starts at
    [int(state['dipole_amplitude'] * 1e9)]; [int] raises only on nan and the
    infinities. *)
Definition _init_widget (state : State) : Widget :=
  mkWidget "Ready." "Not set" "Not set"
    (mkIntSlider
       (match int_of_float (dipole_amplitude state * 1e9)%float with
        | Some n => n
        | None => 0
        end)
       false)
    [].

Definition _init_markers : Markers :=
  mkMarkers (mkDict3 None None None) (mkDict3 None None None).

(** The busy text is 'Updating', a no-break space (U+00A0) and an ellipsis
    (U+2026), as line 187 has it; see [busy_text_bytes]. *)
Definition _toggle_updating_state (w : World) : World :=
  let w := with_state (set_updating (negb (updating (_state w))) (_state w)) w in
  if updating (_state w)
  then with_widget (set_label_updating "Updating …" (_widget w)) w
  else with_widget (set_label_updating "Ready." (_widget w)) w.

Definition _enable_crosshair_cursor (w : World) : World :=
  cursor.enable_crosshair_cursor w.

(** The argument of [_plot_slice]: ['all'] or one axis name. *)
Inductive AxisArg : Set := all | one (axis : Axis).

Definition _plot_slice (axis : AxisArg) (w : World) : World :=
  let axes := match axis with all => [AxX; AxY; AxZ] | one a => [a] end in
  fold_left
    (fun w axis =>
       let pos := sc_val (getitem (slice_coord (_state w)) axis) in
       slice.plot_slice axis pos w)
    axes w.

Definition _plot_sensors (ch_type : option ChType) (w : World) : World :=
  let ch_types := match ch_type with
                  | None => [mag; grad; eeg]
                  | Some ch_type => [ch_type]
                  end in
  fold_left (fun w ch_type => evoked_field.plot_sensors ch_type w) ch_types w.

Definition _plot_dipole_markers_and_arrow (w : World) : World :=
  let w := if is_not_None (dx (dipole_pos (_state w)))
           then dipole.plot_dipole_pos_marker w else w in
  let w := if is_not_None (dx (dipole_ori (_state w)))
           then dipole.plot_dipole_ori_marker w else w in
  if dipole_ready (_state w) then dipole.draw_dipole_arrows w else w.

(** The keys of [widget['fig']]. *)
Definition fig_keys : list Axis := [AxX; AxY; AxZ].

(** [for axis, fig in widget['fig'].items(): if fig is in_ax.figure: break]:
    the value of [axis] after the loop, the last key when nothing matched.
    The third argument is [axis] so far; the dict has three keys, so the
    value the loop starts with is never returned. *)
Fixpoint clicked_axis (keys : list Axis) (target : Figure) (axis : Axis)
    : Axis :=
  match keys with
  | [] => axis
  | k :: rest =>
      if Figure_is (slice_fig k) target then k else clicked_axis rest target k
  end.

(** The body of [_handle_slice_click], under its decorator. *)
Definition _handle_slice_click__wrapped (event : MouseEvent) (w : World)
    : World :=
  if negb (MouseButton_eqb (button event) LEFT) then w else
  let w := _toggle_updating_state w in
  match inaxes event with
  | None => _toggle_updating_state w
  | Some in_ax =>
      let x := xdata event in
      let y := ydata event in
      let axis := clicked_axis fig_keys (figure in_ax) AxX in
      let '(x_idx, y_idx) := slice.get_axis_names_from_slice axis fig_keys in
      let remaining_idx := axis in
      let w :=
        if (mode (_state w) =? "slice_browser")%string then
          callbacks.handle_click_in_slice_browser_mode x y x_idx y_idx w
        else if (mode (_state w) =? "set_dipole_pos")%string then
          callbacks.handle_click_in_set_dipole_pos_mode
            x_idx y_idx remaining_idx x y w
        else if (mode (_state w) =? "set_dipole_ori")%string then
          callbacks.handle_click_in_set_dipole_ori_mode
            x_idx y_idx remaining_idx x y w
        else w in
      let w := _plot_dipole_markers_and_arrow w in
      let w := _enable_crosshair_cursor w in
      let w := if dipole_ready (_state w)
               then evoked_field.plot_evoked w else w in
      _toggle_updating_state w
  end.

(** [@output_widget.capture(clear_output=True)] around the body. *)
Definition _handle_slice_click (event : MouseEvent) : World -> World :=
  capture_clear_output (_handle_slice_click__wrapped event).

Definition set_slider_disabled (v : bool) (w : World) : World :=
  let g := _widget w in
  with_widget
    (set_amplitude_slider (mkIntSlider (value (amplitude_slider g)) v) g) w.

Definition set_slider_value (v : Z) (w : World) : World :=
  let g := _widget w in
  with_widget
    (set_amplitude_slider (mkIntSlider v (disabled (amplitude_slider g))) g) w.

(** [new] is [change['new']], the slider's new value. *)
Definition _handle_amp_change (new : Z) (w : World) : World :=
  let w := _toggle_updating_state w in
  let w := set_slider_disabled true w in
  let new_amp := (float_of_int new * 1e-9)%float in
  let w := with_state (set_dipole_amplitude new_amp (_state w)) w in
  let w := if dipole_ready (_state w)
           then evoked_field.plot_evoked w else w in
  let w := _toggle_updating_state w in
  set_slider_disabled false w.

(** An assignment to [widget['amplitude_slider'].value].  The trait keeps the
    value inside the slider's bounds and, when the value changes, notifies
    the observer registered in [_init_widget]: [_handle_amp_change]. *)
Definition amplitude_slider_assign (v : Z) (w : World) : World :=
  let v := Z.min (Z.max v slider_min) slider_max in
  if v =? value (amplitude_slider (_widget w)) then w
  else _handle_amp_change v (set_slider_value v w).

Definition _handle_reset_button_click (w : World) : World :=
  let w := dipole.remove_dipole_arrows w in
  let w := dipole.remove_dipole_pos_markers w in
  let w := dipole.remove_dipole_ori_markers w in
  let w := with_state _init_state w in
  let w := _plot_slice all w in
  let w := evoked_field.reset_topomaps w in
  let w := with_widget (set_label_dipole_pos "Not set" (_widget w)) w in
  let w := with_widget (set_label_dipole_ori "Not set" (_widget w)) w in
  let w :=
    (* the slider's value is an integer trait: the float is cast by [int],
       which fails only on nan and the infinities *)
    match int_of_float (dipole_amplitude (_state w) * 1e9)%float with
    | Some v => amplitude_slider_assign v w
    | None => w
    end in
  _enable_crosshair_cursor w.

Definition _set_view_mode (new_mode : string) (w : World) : World :=
  let state := _state w in
  if (new_mode =? "Slice Browser")%string then
    with_state (set_mode "slice_browser" state) w
  else if (new_mode =? "Set Dipole Origin")%string then
    with_state (set_mode "set_dipole_pos" state) w
  else if (new_mode =? "Set Dipole Orientation")%string then
    with_state (set_mode "set_dipole_ori" state) w
  else w.

(** [new_mode] is [change['new']], the selected option. *)
Definition _handle_view_mode_change (new_mode : string) (w : World) : World :=
  _set_view_mode new_mode w.

(** [App.__init__]: the world a session starts in. *)
Definition init : World :=
  let state := _init_state in
  let w := mkWorld state (_init_widget state) _init_markers [] false [] in
  let w := _plot_slice all w in
  let w := _plot_sensors None w in
  _enable_crosshair_cursor w.

End App.

Import App.

(** ** Vocabulary of the properties *)

(** The collaborator calls a handler makes when it runs in [w]. *)
Definition calls_during (handler : World -> World) (w : World) : list Entry :=
  skipn (length (trace w)) (trace (handler w)).

(** The field evaluations among some calls. *)
Definition evaluations (l : list Entry) : list Entry :=
  filter (fun e => is_plot_evoked (call e)) l.

(** All three coordinates are set. *)
Definition fully_defined (d : Dict3 (option Q)) : Prop :=
  forall axis, getitem d axis <> None.

(** No coordinate is set. *)
Definition unset (d : Dict3 (option Q)) : Prop :=
  forall axis, getitem d axis = None.

(** The same value under every key. *)
Definition coordwise_identical (d e : Dict3 (option Q)) : Prop :=
  forall axis,
    match getitem d axis, getitem e axis with
    | Some p, Some q => p == q
    | None, None => True
    | _, _ => False
    end.

(** Position and orientation are both set and differ. *)
Definition ready (s : State) : Prop :=
  fully_defined (dipole_pos s) /\ fully_defined (dipole_ori s) /\
  ~ coordwise_identical (dipole_pos s) (dipole_ori s).

(** One of them is unset, or they are equal. *)
Definition unset_or_equal (s : State) : Prop :=
  unset (dipole_pos s) \/ unset (dipole_ori s) \/
  coordwise_identical (dipole_pos s) (dipole_ori s).

(** A dipole point is "3 scalars or unset": never partly set. *)
Definition dipoles_wf (s : State) : Prop :=
  (fully_defined (dipole_pos s) \/ unset (dipole_pos s)) /\
  (fully_defined (dipole_ori s) \/ unset (dipole_ori s)).

(** The busy flag at the time of a call. *)
Definition busy (e : Entry) : Prop := updating (at_state e) = true.

(** The status label says what the busy flag says (the busy text with its
    no-break space, as [_toggle_updating_state] writes it). *)
Definition label_consistent (w : World) : Prop :=
  label_updating (_widget w) =
  if updating (_state w) then "Updating …" else "Ready.".

(** Two states that differ at most in [mode]. *)
Definition same_except_mode (s s' : State) : Prop :=
  slice_coord s' = slice_coord s /\ crosshair_pos s' = crosshair_pos s /\
  dipole_pos s' = dipole_pos s /\ dipole_ori s' = dipole_ori s /\
  dipole_amplitude s' = dipole_amplitude s /\ label_text s' = label_text s /\
  dipole_arrows s' = dipole_arrows s /\ updating s' = updating s.

(** What a mode change may touch: the [mode] entry of the state, nothing
    else of the controller. *)
Definition only_mode_set_to (m : string) (w w' : World) : Prop :=
  mode (_state w') = m /\ same_except_mode (_state w) (_state w') /\
  _widget w' = _widget w /\ _markers w' = _markers w /\
  output w' = output w /\ trace w' = trace w.

(** A browsing click on the slice view of [axis]: what it must leave alone.
    Only the [val] entries of the slice coordinates and the crosshair entries
    of the two other axes, the plane of the view, may move. *)
Definition only_plane_moved (axis : Axis) (s s' : State) : Prop :=
  dipole_pos s' = dipole_pos s /\ dipole_ori s' = dipole_ori s /\
  dipole_amplitude s' = dipole_amplitude s /\ mode s' = mode s /\
  label_text s' = label_text s /\ dipole_arrows s' = dipole_arrows s /\
  getitem (slice_coord s') axis = getitem (slice_coord s) axis /\
  getitem (crosshair_pos s') axis = getitem (crosshair_pos s) axis /\
  forall a,
    sc_min (getitem (slice_coord s') a) = sc_min (getitem (slice_coord s) a) /\
    sc_max (getitem (slice_coord s') a) = sc_max (getitem (slice_coord s) a).

(** A call that is no field evaluation, made while the busy flag is [b]. *)
Definition quiet (b : bool) (e : Entry) : Prop :=
  is_plot_evoked (call e) = false /\ updating (at_state e) = b.

(** From [w] to [w'] the busy flag is kept and only quiet calls are made. *)
Definition quiet_step (w w' : World) : Prop :=
  updating (_state w') = updating (_state w) /\
  exists d, trace w' = (trace w ++ d)%list /\
              Forall (quiet (updating (_state w))) d.

(** *** Parts of the handlers, named for the proofs *)

(** The dispatch on the mode, as [_handle_slice_click] writes it. *)
Definition mode_callback (x y : Q) (x_idx y_idx remaining_idx : Axis)
    (w : World) : World :=
  if (mode (_state w) =? "slice_browser")%string then
    callbacks.handle_click_in_slice_browser_mode x y x_idx y_idx w
  else if (mode (_state w) =? "set_dipole_pos")%string then
    callbacks.handle_click_in_set_dipole_pos_mode
      x_idx y_idx remaining_idx x y w
  else if (mode (_state w) =? "set_dipole_ori")%string then
    callbacks.handle_click_in_set_dipole_ori_mode
      x_idx y_idx remaining_idx x y w
  else w.

(** The world the reset handler has built when it assigns the slider. *)
Definition reset_before_slider (w : World) : World :=
  let w := dipole.remove_dipole_arrows w in
  let w := dipole.remove_dipole_pos_markers w in
  let w := dipole.remove_dipole_ori_markers w in
  let w := with_state _init_state w in
  let w := _plot_slice all w in
  let w := evoked_field.reset_topomaps w in
  let w := with_widget (set_label_dipole_pos "Not set" (_widget w)) w in
  with_widget (set_label_dipole_ori "Not set" (_widget w)) w.

(** ** A session, for the concrete runs *)

Definition click (b : MouseButton) (view : option Axis) (x y : Z)
    : MouseEvent :=
  mkMouseEvent b (option_map (fun a => mkAxes (slice_fig a)) view)
    (inject_Z x) (inject_Z y).

(** The origin is set by a click at (3, 4) in the axial view. *)
Definition w_origin_set : World :=
  _handle_slice_click (click LEFT (Some AxZ) 3 4)
    (_handle_view_mode_change "Set Dipole Origin" init).

(** The selector is moved to the orientation mode. *)
Definition w_before_orientation : World :=
  _handle_view_mode_change "Set Dipole Orientation" w_origin_set.

(** Then the orientation is set, by a click at (7, 8) in the sagittal view:
    the field is evaluated for the first time. *)
Definition w_evaluated : World :=
  _handle_slice_click (click LEFT (Some AxX) 7 8) w_before_orientation.

(** The evaluated session, back in browsing mode. *)
Definition w_browsing : World :=
  _handle_view_mode_change "Slice Browser" w_evaluated.

(** The events of the user interface and the handler each one reaches.
    Dragging the slider assigns its value, which notifies the observer. *)
Inductive Event : Type :=
| SliceClick (event : MouseEvent)
| AmpChange (new : Z)
| ViewModeChange (new_mode : string)
| ResetClick.

Definition handle (e : Event) (w : World) : World :=
  match e with
  | SliceClick event => _handle_slice_click event w
  | AmpChange new => amplitude_slider_assign new w
  | ViewModeChange new_mode => _handle_view_mode_change new_mode w
  | ResetClick => _handle_reset_button_click w
  end.

(** A session: the events in turn, from the world of [App.__init__]. *)
Definition run (events : list Event) : World :=
  fold_left (fun w e => handle e w) events init.

(** The user drags the amplitude slider of a fresh session to 70 nAm. *)
Definition w_moved : World := run [AmpChange 70].

(** ** The busy flag and its label *)

(** The bytes of the busy text: 'Updating', then U+00A0 and U+2026 in
    UTF-8. *)
Lemma busy_text_bytes :
  label_updating
    (_widget (_toggle_updating_state (with_state (set_updating false _init_state) init))) =
  ("Updating" ++
   String (Ascii.ascii_of_nat 194) (String (Ascii.ascii_of_nat 160)
     (String (Ascii.ascii_of_nat 226) (String (Ascii.ascii_of_nat 128)
        (String (Ascii.ascii_of_nat 166) EmptyString)))))%string.
Proof. reflexivity. Qed.

Lemma toggle_state (w : World) :
  _state (_toggle_updating_state w) =
  set_updating (negb (updating (_state w))) (_state w).
Proof.
  unfold _toggle_updating_state; cbn.
  destruct (negb (updating (_state w))); reflexivity.
Qed.

Lemma toggle_trace (w : World) :
  trace (_toggle_updating_state w) = trace w.
Proof.
  unfold _toggle_updating_state; cbn.
  destruct (negb (updating (_state w))); reflexivity.
Qed.

Lemma toggle_markers (w : World) :
  _markers (_toggle_updating_state w) = _markers w.
Proof.
  unfold _toggle_updating_state; cbn.
  destruct (negb (updating (_state w))); reflexivity.
Qed.

Lemma toggle_label (w : World) : label_consistent (_toggle_updating_state w).
Proof.
  unfold label_consistent, _toggle_updating_state; cbn.
  destruct (updating (_state w)); reflexivity.
Qed.

Lemma toggle_twice_state (w : World) :
  _state (_toggle_updating_state (_toggle_updating_state w)) = _state w.
Proof.
  rewrite !toggle_state. destruct (_state w) as [? ? ? ? ? ? ? ? u].
  cbn. rewrite negb_involutive. reflexivity.
Qed.

(** C10: toggling keeps the status label in step with the busy flag (the busy
    text, 'Updating', a no-break space and an ellipsis, exactly when the flag
    is true, 'Ready.' exactly when it is false), and toggling twice brings
    the flag and the label, indeed the whole controller, back to where they
    were. *)
Theorem toggle_updating_state_consistent_involutive (w : World)
    (H : label_consistent w) :
  label_consistent (_toggle_updating_state w) /\
  _toggle_updating_state (_toggle_updating_state w) = w.
Proof.
  split; [apply toggle_label|].
  destruct w as [[? ? ? ? ? ? ? ? u] [l ? ? ? ?] m o c t].
  unfold label_consistent in H; cbn in H; subst l.
  destruct u; reflexivity.
Qed.

Lemma toggle_updating_state_witness :
  label_consistent init /\
  label_consistent (_toggle_updating_state init) /\
  _toggle_updating_state (_toggle_updating_state init) = init.
Proof.
  assert (H : label_consistent init) by reflexivity.
  split; [exact H|].
  exact (toggle_updating_state_consistent_involutive init H).
Defined.

(** ** The mode selector *)

Lemma with_state_same (w : World) : with_state (_state w) w = w.
Proof. destruct w; reflexivity. Qed.

Lemma set_mode_same (s : State) : set_mode (mode s) s = s.
Proof. destruct s; reflexivity. Qed.

(** C7: selecting the option of the mode that is already active leaves the
    whole controller, and so the whole state with its mode, unchanged. *)
Theorem view_mode_change_idempotent (w : World) :
  (mode (_state w) = "slice_browser" ->
   _handle_view_mode_change "Slice Browser" w = w) /\
  (mode (_state w) = "set_dipole_pos" ->
   _handle_view_mode_change "Set Dipole Origin" w = w) /\
  (mode (_state w) = "set_dipole_ori" ->
   _handle_view_mode_change "Set Dipole Orientation" w = w).
Proof.
  unfold _handle_view_mode_change, _set_view_mode; cbn.
  repeat split; intros <-; rewrite set_mode_same; apply with_state_same.
Qed.

Lemma view_mode_change_idempotent_witness :
  _handle_view_mode_change "Slice Browser" init = init /\
  _handle_view_mode_change "Set Dipole Origin"
    (_handle_view_mode_change "Set Dipole Origin" init) =
  _handle_view_mode_change "Set Dipole Origin" init /\
  _handle_view_mode_change "Set Dipole Orientation" w_evaluated = w_evaluated.
Proof.
  split; [|split].
  - apply (proj1 (view_mode_change_idempotent init)). reflexivity.
  - apply (proj1 (proj2 (view_mode_change_idempotent
                           (_handle_view_mode_change "Set Dipole Origin" init)))).
    reflexivity.
  - apply (proj2 (proj2 (view_mode_change_idempotent w_evaluated))).
    reflexivity.
Defined.

(** C8: for every prior state, set or unset dipole alike, each of the three
    selector options sets the mode to its own value and neither tests nor
    changes anything else. *)
Theorem view_mode_change_unconditional (w : World) :
  only_mode_set_to "slice_browser" w
    (_handle_view_mode_change "Slice Browser" w) /\
  only_mode_set_to "set_dipole_pos" w
    (_handle_view_mode_change "Set Dipole Origin" w) /\
  only_mode_set_to "set_dipole_ori" w
    (_handle_view_mode_change "Set Dipole Orientation" w).
Proof.
  unfold only_mode_set_to, same_except_mode, _handle_view_mode_change,
    _set_view_mode; cbn.
  repeat split; reflexivity.
Qed.

(** ** Clicks that are ignored *)

Lemma not_left (b : MouseButton) :
  b <> LEFT -> negb (MouseButton_eqb b LEFT) = true.
Proof. destruct b; intros H; try reflexivity. now destruct H. Qed.

Lemma click_not_left_shape (w : World) (event : MouseEvent) :
  button event <> LEFT ->
  _handle_slice_click event w = with_output [] false w.
Proof.
  intros H. unfold _handle_slice_click, capture_clear_output,
    _handle_slice_click__wrapped.
  rewrite (not_left _ H). reflexivity.
Qed.

Lemma click_outside_shape (w : World) (event : MouseEvent) :
  button event = LEFT -> inaxes event = None ->
  _handle_slice_click event w =
  with_output [] false (_toggle_updating_state (_toggle_updating_state w)).
Proof.
  intros Hb Hin. unfold _handle_slice_click, capture_clear_output,
    _handle_slice_click__wrapped.
  rewrite Hb, Hin; cbn [negb MouseButton_eqb].
  destruct w as [[? ? ? ? ? ? ? ? u] g m o c t]. destruct u; reflexivity.
Qed.

Lemma calls_during_none (handler : World -> World) (w : World) :
  trace (handler w) = trace w -> calls_during handler w = [].
Proof. intros H. unfold calls_during. rewrite H. apply skipn_all. Qed.

(** C9, as the code has it: a click with any button but the left one leaves
    the state (the busy flag with it), every label, the markers and the arrows
    unchanged and calls no collaborator, so nothing is drawn or evaluated;
    its one effect is the decorator's: the shared output widget is cleared. *)
Theorem non_left_click_only_clears_output (w : World) (event : MouseEvent)
    (H : button event <> LEFT) :
  _state (_handle_slice_click event w) = _state w /\
  _widget (_handle_slice_click event w) = _widget w /\
  _markers (_handle_slice_click event w) = _markers w /\
  calls_during (_handle_slice_click event) w = [] /\
  output (_handle_slice_click event w) = [].
Proof.
  pose proof (click_not_left_shape w event H) as E.
  repeat split; try (rewrite E; reflexivity).
  apply calls_during_none. rewrite E. reflexivity.
Qed.

Lemma non_left_click_witness :
  button (click RIGHT (Some AxY) 1 2) <> LEFT /\
  _state (_handle_slice_click (click RIGHT (Some AxY) 1 2) w_evaluated) =
  _state w_evaluated /\
  output (_handle_slice_click (click RIGHT (Some AxY) 1 2) w_evaluated) = [].
Proof.
  assert (H : button (click RIGHT (Some AxY) 1 2) <> LEFT) by discriminate.
  split; [exact H|].
  destruct (non_left_click_only_clears_output w_evaluated _ H)
    as (Hs & _ & _ & _ & Ho).
  split; [exact Hs | exact Ho].
Defined.

(** C9 as stated fails: after the first field evaluation the output widget
    shows what the collaborators of that click printed, and a right click
    takes it away. *)
Lemma non_left_click_has_an_effect :
  ~ (forall (w : World) (event : MouseEvent),
       button event <> LEFT -> _handle_slice_click event w = w).
Proof.
  intros claim.
  assert (H : output (_handle_slice_click (click RIGHT None 0 0) w_evaluated)
              = output w_evaluated)
    by (rewrite claim; [reflexivity | discriminate]).
  vm_compute in H. discriminate H.
Qed.

(** C5: a left click inside the figure but outside every axes returns with
    the state it found; no collaborator is called, so no marker is drawn and
    no field evaluated, and markers and arrows stay as they were. *)
Theorem click_outside_axes_ignored (w : World) (event : MouseEvent)
    (Hb : button event = LEFT) (Hin : inaxes event = None) :
  _state (_handle_slice_click event w) = _state w /\
  _markers (_handle_slice_click event w) = _markers w /\
  fig_arrows (_widget (_handle_slice_click event w)) = fig_arrows (_widget w) /\
  calls_during (_handle_slice_click event) w = [].
Proof.
  pose proof (click_outside_shape w event Hb Hin) as E.
  split; [|split; [|split]].
  - rewrite E. apply toggle_twice_state.
  - rewrite E. cbn [_markers with_output]. now rewrite !toggle_markers.
  - rewrite E. destruct w as [[? ? ? ? ? ? ? ? u] g m o c t].
    destruct u; reflexivity.
  - apply calls_during_none. rewrite E. cbn [trace with_output].
    now rewrite !toggle_trace.
Qed.

Lemma click_outside_axes_witness :
  _state (_handle_slice_click (click LEFT None 0 0) w_evaluated) =
  _state w_evaluated /\
  calls_during (_handle_slice_click (click LEFT None 0 0)) w_evaluated = [].
Proof.
  destruct (click_outside_axes_ignored w_evaluated (click LEFT None 0 0)
              eq_refl eq_refl) as (Hs & _ & _ & Hc).
  split; [exact Hs | exact Hc].
Defined.

(** ** The stages of a click inside the axes *)

Lemma quiet_step_refl (w : World) : quiet_step w w.
Proof.
  split; [reflexivity|]. exists []. rewrite app_nil_r. split; constructor.
Qed.

Lemma quiet_step_trans (a b c : World) :
  quiet_step a b -> quiet_step b c -> quiet_step a c.
Proof.
  intros [Hu (d & Ht & Hd)] [Hu' (d' & Ht' & Hd')]. split.
  - congruence.
  - exists (d ++ d')%list. rewrite Ht', Ht, app_assoc. split; [reflexivity|].
    apply Forall_app; split; [exact Hd|]. rewrite <- Hu. exact Hd'.
Qed.

Lemma quiet_step_log (c : Call) (w : World) :
  is_plot_evoked c = false -> quiet_step w (log c w).
Proof.
  intros Hc. split; [reflexivity|].
  exists [mkEntry c (_state w)]. split; [reflexivity|].
  constructor; [split; [exact Hc | reflexivity] | constructor].
Qed.

(** A step that leaves the state and the trace of a quiet step alone. *)
Lemma quiet_step_then (w w1 w2 : World) :
  quiet_step w w1 -> updating (_state w2) = updating (_state w1) ->
  trace w2 = trace w1 -> quiet_step w w2.
Proof.
  intros [Hu (d & Ht & Hd)] Hu2 Ht2. split; [congruence|].
  exists d. split; [congruence | exact Hd].
Qed.

Lemma markers_stage_state (w : World) :
  _state (_plot_dipole_markers_and_arrow w) = _state w.
Proof.
  unfold _plot_dipole_markers_and_arrow.
  set (w1 := if is_not_None (dx (dipole_pos (_state w)))
             then dipole.plot_dipole_pos_marker w else w).
  assert (H1 : _state w1 = _state w)
    by (subst w1; destruct (is_not_None _); reflexivity).
  clearbody w1.
  set (w2 := if is_not_None (dx (dipole_ori (_state w1)))
             then dipole.plot_dipole_ori_marker w1 else w1).
  assert (H2 : _state w2 = _state w1)
    by (subst w2; destruct (is_not_None _); reflexivity).
  clearbody w2.
  destruct (dipole_ready (_state w2)); cbn; congruence.
Qed.

Lemma markers_stage_quiet (w : World) :
  quiet_step w (_plot_dipole_markers_and_arrow w).
Proof.
  unfold _plot_dipole_markers_and_arrow.
  set (w1 := if is_not_None (dx (dipole_pos (_state w)))
             then dipole.plot_dipole_pos_marker w else w).
  assert (H1 : quiet_step w w1).
  { subst w1. destruct (is_not_None _).
    - eapply quiet_step_then;
        [apply (quiet_step_log c_plot_dipole_pos_marker); reflexivity | |];
        reflexivity.
    - apply quiet_step_refl. }
  set (w2 := if is_not_None (dx (dipole_ori (_state w1)))
             then dipole.plot_dipole_ori_marker w1 else w1).
  assert (H2 : quiet_step w1 w2).
  { subst w2. destruct (is_not_None (dx (dipole_ori (_state w1)))).
    - eapply quiet_step_then;
        [apply (quiet_step_log c_plot_dipole_ori_marker); reflexivity | |];
        reflexivity.
    - apply quiet_step_refl. }
  assert (H3 : quiet_step w2
                 (if dipole_ready (_state w2)
                  then dipole.draw_dipole_arrows w2 else w2)).
  { destruct (dipole_ready (_state w2)).
    - eapply quiet_step_then;
        [apply (quiet_step_log c_draw_dipole_arrows); reflexivity | |];
        reflexivity.
    - apply quiet_step_refl. }
  exact (quiet_step_trans _ _ _ (quiet_step_trans _ _ _ H1 H2) H3).
Qed.

Lemma cursor_stage_quiet (w : World) :
  quiet_step w (_enable_crosshair_cursor w) /\
  _state (_enable_crosshair_cursor w) = _state w.
Proof.
  split; [|reflexivity].
  apply (quiet_step_log c_enable_crosshair_cursor). reflexivity.
Qed.

(** The two axes of a view's plane differ from the view's axis and from
    each other. *)
Lemma plane_axes (fig : Figure) (x_idx y_idx : Axis) :
  slice.get_axis_names_from_slice (clicked_axis fig_keys fig AxX) fig_keys
    = (x_idx, y_idx) ->
  x_idx <> clicked_axis fig_keys fig AxX /\
  y_idx <> clicked_axis fig_keys fig AxX /\ x_idx <> y_idx.
Proof.
  destruct fig as [[]|n]; cbn; intros [= <- <-]; repeat split; discriminate.
Qed.

Lemma resolve_point_fully_defined (s : State) (x_idx y_idx axis : Axis)
    (x y : Q) :
  x_idx <> axis -> y_idx <> axis -> x_idx <> y_idx ->
  fully_defined (callbacks.resolve_point s x_idx y_idx axis x y).
Proof.
  intros H1 H2 H3 a.
  destruct x_idx, y_idx, axis; try congruence; destruct a; discriminate.
Qed.

Lemma mode_callback_quiet (x y : Q) (x_idx y_idx axis : Axis) (w : World) :
  quiet_step w (mode_callback x y x_idx y_idx axis w).
Proof.
  unfold mode_callback.
  destruct (mode (_state w) =? "slice_browser")%string;
    [|destruct (mode (_state w) =? "set_dipole_pos")%string;
      [|destruct (mode (_state w) =? "set_dipole_ori")%string]].
  - eapply quiet_step_then;
      [apply (quiet_step_log c_handle_click_in_slice_browser_mode);
       reflexivity | |]; reflexivity.
  - eapply quiet_step_then;
      [apply (quiet_step_log c_handle_click_in_set_dipole_pos_mode);
       reflexivity | |]; reflexivity.
  - eapply quiet_step_then;
      [apply (quiet_step_log c_handle_click_in_set_dipole_ori_mode);
       reflexivity | |]; reflexivity.
  - apply quiet_step_refl.
Qed.

Lemma mode_callback_wf (x y : Q) (x_idx y_idx axis : Axis) (w : World) :
  x_idx <> axis -> y_idx <> axis -> x_idx <> y_idx ->
  dipoles_wf (_state w) ->
  dipoles_wf (_state (mode_callback x y x_idx y_idx axis w)).
Proof.
  intros H1 H2 H3 [Hp Ho]. unfold mode_callback.
  destruct (mode (_state w) =? "slice_browser")%string;
    [|destruct (mode (_state w) =? "set_dipole_pos")%string;
      [|destruct (mode (_state w) =? "set_dipole_ori")%string]];
    split; cbn; auto; left; apply resolve_point_fully_defined; assumption.
Qed.

Lemma mode_callback_browse (x y : Q) (x_idx y_idx axis : Axis) (w : World) :
  x_idx <> axis -> y_idx <> axis ->
  mode (_state w) = "slice_browser" ->
  only_plane_moved axis (_state w)
    (_state (mode_callback x y x_idx y_idx axis w)).
Proof.
  intros H1 H2 Hm. unfold mode_callback. rewrite Hm.
  unfold callbacks.handle_click_in_slice_browser_mode, set_crosshair_pos,
    set_slice_coord; simpl.
  repeat split.
  - destruct x_idx, y_idx, axis; try congruence; reflexivity.
  - destruct x_idx, y_idx, axis; try congruence; reflexivity.
  - destruct x_idx, y_idx, a; reflexivity.
  - destruct x_idx, y_idx, a; reflexivity.
Qed.

(** The new values a browsing click writes. *)
Lemma mode_callback_browse_writes (x y : Q) (x_idx y_idx axis : Axis)
    (w : World) :
  x_idx <> y_idx -> mode (_state w) = "slice_browser" ->
  let s' := _state (mode_callback x y x_idx y_idx axis w) in
  sc_val (getitem (slice_coord s') x_idx) = x /\
  sc_val (getitem (slice_coord s') y_idx) = y /\
  getitem (crosshair_pos s') x_idx = x /\
  getitem (crosshair_pos s') y_idx = y.
Proof.
  intros H Hm. unfold mode_callback. rewrite Hm.
  unfold callbacks.handle_click_in_slice_browser_mode, set_crosshair_pos,
    set_slice_coord; simpl.
  destruct x_idx, y_idx; try congruence; repeat split.
Qed.

Lemma skipn_app_exact {A : Type} (l d : list A) :
  skipn (Datatypes.length l) (l ++ d) = d.
Proof. induction l as [|a l IH]; [reflexivity | exact IH]. Qed.

(** The stages of [_handle_slice_click] for a left click inside an axes,
    put together.  [s'] is the state the handler leaves; the state its
    readiness test saw is [s'] with the busy flag still set. *)
Lemma click_inside_shape (w : World) (event : MouseEvent) (in_ax : Axes)
    (Hb : button event = LEFT) (Hin : inaxes event = Some in_ax) :
  let axis := clicked_axis fig_keys (figure in_ax) AxX in
  let s := _state w in
  let s' := _state (_handle_slice_click event w) in
  exists pre,
    calls_during (_handle_slice_click event) w =
      (pre ++ if dipole_ready s'
              then [mkEntry c_plot_evoked
                      (set_updating (negb (updating s)) s')]
              else [])%list /\
    Forall (quiet (negb (updating s))) pre /\
    updating s' = updating s /\
    (dipoles_wf s -> dipoles_wf s') /\
    (mode s = "slice_browser" -> only_plane_moved axis s s') /\
    (mode s = "slice_browser" ->
     forall x_idx y_idx,
       slice.get_axis_names_from_slice axis fig_keys = (x_idx, y_idx) ->
       sc_val (getitem (slice_coord s') x_idx) = xdata event /\
       sc_val (getitem (slice_coord s') y_idx) = ydata event /\
       getitem (crosshair_pos s') x_idx = xdata event /\
       getitem (crosshair_pos s') y_idx = ydata event).
Proof.
  intros axis s s'. subst s'.
  unfold calls_during, _handle_slice_click, capture_clear_output,
    _handle_slice_click__wrapped.
  rewrite Hb, Hin. cbn [negb MouseButton_eqb].
  fold axis.
  destruct (slice.get_axis_names_from_slice axis fig_keys)
    as [x_idx y_idx] eqn:Hax.
  destruct (plane_axes _ _ _ Hax) as (Hx & Hy & Hxy). fold axis in Hx, Hy.
  set (w0 := with_output (output (with_output [] (capturing w) w)) true
               (with_output [] (capturing w) w)).
  set (w1 := _toggle_updating_state w0).
  fold (mode_callback (xdata event) (ydata event) x_idx y_idx axis w1).
  set (w2 := mode_callback (xdata event) (ydata event) x_idx y_idx axis w1).
  set (w3 := _enable_crosshair_cursor (_plot_dipole_markers_and_arrow w2)).
  assert (Hs1 : _state w1 = set_updating (negb (updating s)) s)
    by (subst w1; rewrite toggle_state; reflexivity).
  assert (Ht1 : trace w1 = trace w)
    by (subst w1; rewrite toggle_trace; reflexivity).
  assert (Hu1 : updating (_state w1) = negb (updating s))
    by (rewrite Hs1; reflexivity).
  assert (Hs3 : _state w3 = _state w2)
    by (subst w3; rewrite (proj2 (cursor_stage_quiet _));
        apply markers_stage_state).
  assert (Hq : quiet_step w1 w3).
  { eapply quiet_step_trans; [apply mode_callback_quiet|].
    fold w2. eapply quiet_step_trans; [apply markers_stage_quiet|].
    apply cursor_stage_quiet. }
  destruct Hq as [Hu3 (pre & Ht3 & Hpre)].
  rewrite Hu1 in Hpre. rewrite Hu1 in Hu3. rewrite Ht1 in Ht3.
  set (w4 := if dipole_ready (_state w3)
             then evoked_field.plot_evoked w3 else w3).
  assert (Hs4 : _state w4 = _state w3)
    by (subst w4; destruct (dipole_ready (_state w3)); reflexivity).
  assert (Hfin : _state (with_output (output (_toggle_updating_state w4))
                           false (_toggle_updating_state w4))
                 = set_updating (updating s) (_state w3)).
  { change (_state (with_output (output (_toggle_updating_state w4)) false
                      (_toggle_updating_state w4)))
      with (_state (_toggle_updating_state w4)).
    rewrite toggle_state, Hs4, Hu3, negb_involutive. reflexivity. }
  rewrite Hfin.
  change (dipole_ready (set_updating (updating s) (_state w3)))
    with (dipole_ready (_state w3)).
  exists pre. split; [|split; [|split; [|split; [|split]]]].
  - change (trace (with_output (output (_toggle_updating_state w4)) false
                     (_toggle_updating_state w4)))
      with (trace (_toggle_updating_state w4)).
    rewrite toggle_trace. subst w4.
    replace (set_updating (negb (updating s))
               (set_updating (updating s) (_state w3))) with (_state w3)
      by (rewrite <- Hu3; destruct (_state w3); reflexivity).
    destruct (dipole_ready (_state w3)); cbn [evoked_field.plot_evoked log trace];
      rewrite Ht3; [rewrite <- app_assoc | rewrite app_nil_r];
      apply skipn_app_exact.
  - exact Hpre.
  - reflexivity.
  - intros Hwf. rewrite Hs3.
    apply (mode_callback_wf (xdata event) (ydata event) x_idx y_idx axis w1
             Hx Hy Hxy).
    rewrite Hs1. exact Hwf.
  - intros Hm. rewrite Hs3.
    assert (Hm1 : mode (_state w1) = "slice_browser") by (rewrite Hs1; exact Hm).
    pose proof (mode_callback_browse (xdata event) (ydata event) x_idx y_idx
                  axis w1 Hx Hy Hm1) as Hf.
    fold w2 in Hf. rewrite Hs1 in Hf. exact Hf.
  - intros Hm ? ? [= <- <-]. rewrite Hs3.
    assert (Hm1 : mode (_state w1) = "slice_browser") by (rewrite Hs1; exact Hm).
    exact (mode_callback_browse_writes (xdata event) (ydata event) x_idx y_idx
             axis w1 Hxy Hm1).
Qed.

Lemma amp_change_shape (new : Z) (w : World) :
  let s := _state w in
  let new_amp := (float_of_int new * 1e-9)%float in
  _state (_handle_amp_change new w) = set_dipole_amplitude new_amp s /\
  _markers (_handle_amp_change new w) = _markers w /\
  label_consistent (_handle_amp_change new w) /\
  trace (_handle_amp_change new w) =
    (trace w ++
     if dipole_ready s
     then [mkEntry c_plot_evoked
             (set_dipole_amplitude new_amp
                (set_updating (negb (updating s)) s))]
     else [])%list.
Proof.
  intros s new_amp. unfold _handle_amp_change. fold new_amp.
  set (w1 := set_slider_disabled true (_toggle_updating_state w)).
  set (w3 := with_state (set_dipole_amplitude new_amp (_state w1)) w1).
  assert (Hs3 : _state w3 =
                set_dipole_amplitude new_amp
                  (set_updating (negb (updating s)) s))
    by (subst w3 w1; cbn [_state with_state set_slider_disabled with_widget];
        rewrite toggle_state; reflexivity).
  assert (Ht3 : trace w3 = trace w)
    by (subst w3 w1; cbn [trace with_state set_slider_disabled with_widget];
        apply toggle_trace).
  assert (Hm3 : _markers w3 = _markers w)
    by (subst w3 w1; cbn [_markers with_state set_slider_disabled with_widget];
        apply toggle_markers).
  assert (Hr : dipole_ready (_state w3) = dipole_ready s)
    by (rewrite Hs3; reflexivity).
  clearbody w3. rewrite Hr.
  set (w4 := if dipole_ready s then evoked_field.plot_evoked w3 else w3).
  assert (Hs4 : _state w4 = _state w3)
    by (subst w4; destruct (dipole_ready s); reflexivity).
  assert (Hm4 : _markers w4 = _markers w3)
    by (subst w4; destruct (dipole_ready s); reflexivity).
  assert (Ht4 : trace w4 =
                (trace w ++ if dipole_ready s
                            then [mkEntry c_plot_evoked (_state w3)]
                            else [])%list).
  { subst w4. destruct (dipole_ready s); cbn [evoked_field.plot_evoked log trace];
      rewrite Ht3; [reflexivity | symmetry; apply app_nil_r]. }
  clearbody w4.
  cbn [_state _markers trace set_slider_disabled with_widget].
  rewrite toggle_state, toggle_markers, toggle_trace, Hs4, Hm4, Hm3, Ht4, Hs3.
  split; [|split; [|split]].
  - destruct s; cbn. rewrite negb_involutive. reflexivity.
  - reflexivity.
  - pose proof (toggle_label w4) as Hl. unfold label_consistent in *.
    exact Hl.
  - reflexivity.
Qed.

Lemma amp_change_calls (new : Z) (w : World) :
  calls_during (_handle_amp_change new) w =
  if dipole_ready (_state w)
  then [mkEntry c_plot_evoked
          (set_dipole_amplitude (float_of_int new * 1e-9)%float
             (set_updating (negb (updating (_state w))) (_state w)))]
  else [].
Proof.
  unfold calls_during.
  rewrite (proj2 (proj2 (proj2 (amp_change_shape new w)))).
  apply skipn_app_exact.
Qed.

(** ** The readiness test *)

Lemma py_eq_spec (a b : option Q) :
  py_eq a b = true <->
  match a, b with
  | Some p, Some q => p == q
  | None, None => True
  | _, _ => False
  end.
Proof.
  destruct a as [p|], b as [q|]; cbn; try tauto; try (split; [discriminate | tauto]).
  apply Qeq_bool_iff.
Qed.

Lemma dict_eq_spec (d e : Dict3 (option Q)) :
  dict_eq d e = true <-> coordwise_identical d e.
Proof.
  unfold dict_eq, coordwise_identical. rewrite !andb_true_iff, !py_eq_spec.
  split.
  - intros [[Hx Hy] Hz] []; assumption.
  - intros H. repeat split; [apply (H AxX) | apply (H AxY) | apply (H AxZ)].
Qed.

Lemma is_not_None_spec {A : Type} (v : option A) :
  is_not_None v = true <-> v <> None.
Proof. destruct v; cbn; split; congruence. Qed.

(** What the claims call ready passes the test of the code. *)
Lemma ready_dipole_ready (s : State) : ready s -> dipole_ready s = true.
Proof.
  intros (Hp & Ho & Hne). unfold dipole_ready, dict_ne.
  rewrite !andb_true_iff, !is_not_None_spec, negb_true_iff.
  repeat split; [apply (Hp AxX) | apply (Ho AxX) |].
  destruct (dict_eq (dipole_pos s) (dipole_ori s)) eqn:E; [|reflexivity].
  destruct Hne. apply dict_eq_spec. exact E.
Qed.

(** The test looks at the x entries only; on points that are never partly
    set this is the same as looking at all three. *)
Lemma dipole_ready_ready (s : State) :
  dipoles_wf s -> dipole_ready s = true -> ready s.
Proof.
  intros [Hp Ho]. unfold dipole_ready, dict_ne.
  rewrite !andb_true_iff, !is_not_None_spec, negb_true_iff.
  intros [[Hpx Hox] Hne]. repeat split.
  - destruct Hp as [Hp|Hp]; [exact Hp | destruct (Hpx (Hp AxX))].
  - destruct Ho as [Ho|Ho]; [exact Ho | destruct (Hox (Ho AxX))].
  - intros Hid. apply dict_eq_spec in Hid. congruence.
Qed.

Lemma unset_or_equal_not_ready (s : State) :
  unset_or_equal s -> dipole_ready s = false.
Proof.
  intros H. unfold dipole_ready, dict_ne.
  destruct H as [H | [H | H]].
  - change (dx (dipole_pos s)) with (getitem (dipole_pos s) AxX).
    rewrite (H AxX). reflexivity.
  - change (dx (dipole_ori s)) with (getitem (dipole_ori s) AxX).
    rewrite (H AxX). cbn. rewrite andb_false_r. reflexivity.
  - apply dict_eq_spec in H. rewrite H. cbn. apply andb_false_r.
Qed.

Lemma evaluations_app (l l' : list Entry) :
  evaluations (l ++ l') = (evaluations l ++ evaluations l')%list.
Proof. apply filter_app. Qed.

Lemma evaluations_quiet (b : bool) (l : list Entry) :
  Forall (quiet b) l -> evaluations l = [].
Proof.
  induction 1 as [|e l [He _] _ IH]; [reflexivity|].
  cbn. rewrite He. exact IH.
Qed.

(** The evaluations of a left click inside an axes: one, with the state the
    test saw, when the test passes; none otherwise. *)
Lemma click_inside_evaluations (w : World) (event : MouseEvent) (in_ax : Axes) :
  button event = LEFT -> inaxes event = Some in_ax ->
  let s' := _state (_handle_slice_click event w) in
  evaluations (calls_during (_handle_slice_click event) w) =
  if dipole_ready s'
  then [mkEntry c_plot_evoked (set_updating (negb (updating (_state w))) s')]
  else [].
Proof.
  intros Hb Hin s'.
  destruct (click_inside_shape w event in_ax Hb Hin)
    as (pre & Hc & Hpre & _).
  fold s' in Hc. rewrite Hc, evaluations_app, (evaluations_quiet _ _ Hpre).
  destruct (dipole_ready s'); reflexivity.
Qed.

(** Any click: either it is ignored, or it is a left click inside an axes. *)
Lemma click_cases (w : World) (event : MouseEvent) :
  (calls_during (_handle_slice_click event) w = [] /\
   _state (_handle_slice_click event w) = _state w) \/
  (button event = LEFT /\ exists in_ax, inaxes event = Some in_ax).
Proof.
  assert (Hnl : button event <> LEFT ->
                calls_during (_handle_slice_click event) w = [] /\
                _state (_handle_slice_click event w) = _state w).
  { intros Hn. split.
    - apply calls_during_none.
      rewrite (click_not_left_shape w event Hn). reflexivity.
    - rewrite (click_not_left_shape w event Hn). reflexivity. }
  destruct (button event) eqn:Hb; try (left; apply Hnl; discriminate).
  destruct (inaxes event) as [in_ax|] eqn:Hin.
  - right. split; [reflexivity | exists in_ax; reflexivity].
  - left. split.
    + apply calls_during_none.
      rewrite (click_outside_shape w event Hb Hin). cbn [trace with_output].
      now rewrite !toggle_trace.
    + rewrite (click_outside_shape w event Hb Hin). apply toggle_twice_state.
Qed.

Lemma w_before_orientation_wf : dipoles_wf (_state w_before_orientation).
Proof.
  split; [left | right]; intros []; vm_compute; congruence.
Defined.

Lemma init_unset : unset_or_equal (_state init).
Proof. left. intros []; reflexivity. Defined.

Lemma init_wf : dipoles_wf (_state init).
Proof. split; right; intros []; reflexivity. Defined.

Lemma w_evaluated_ready : ready (_state w_evaluated).
Proof.
  repeat split; try (intros []; vm_compute; congruence).
  intros H. specialize (H AxX). vm_compute in H. discriminate H.
Defined.

(** C2 as stated fails: in a state with both points set and unequal, in
    mode set_dipole_ori, a left click in the axial view at the dipole
    position changes the state (the orientation becomes the position) and
    evaluates nothing, because the two are then equal. *)
Lemma click_onto_position_without_evaluation :
  ~ (forall (w : World) (event : MouseEvent),
       ready (_state w) -> button event = LEFT ->
       _state (_handle_slice_click event w) <> _state w ->
       Datatypes.length
         (evaluations (calls_during (_handle_slice_click event) w)) = 1%nat).
Proof.
  intros claim.
  specialize (claim w_evaluated (click LEFT (Some AxZ) 3 4) w_evaluated_ready
                eq_refl).
  assert (Hmut : _state (_handle_slice_click (click LEFT (Some AxZ) 3 4)
                           w_evaluated) <> _state w_evaluated).
  { intros H. apply (f_equal dipole_ori) in H. vm_compute in H.
    discriminate H. }
  specialize (claim Hmut). vm_compute in claim. discriminate claim.
Qed.

(** C2, as the code has it: an amplitude change evaluates the field exactly
    once when position and orientation are set and unequal; so does a left
    click inside an axes, provided they are set and unequal once the click's
    mode callback has written its update, which for a browsing click is the
    case whenever it was before the click; a left click outside every axes
    evaluates nothing. *)
Theorem field_evaluation_exactly_once (w : World) :
  (forall new,
     ready (_state w) ->
     Datatypes.length
       (evaluations (calls_during (_handle_amp_change new) w)) = 1%nat) /\
  (forall event in_ax,
     button event = LEFT -> inaxes event = Some in_ax ->
     ready (_state (_handle_slice_click event w)) ->
     Datatypes.length
       (evaluations (calls_during (_handle_slice_click event) w)) = 1%nat) /\
  (forall event in_ax,
     button event = LEFT -> inaxes event = Some in_ax ->
     mode (_state w) = "slice_browser" -> ready (_state w) ->
     Datatypes.length
       (evaluations (calls_during (_handle_slice_click event) w)) = 1%nat) /\
  (forall event,
     button event = LEFT -> inaxes event = None ->
     Datatypes.length
       (evaluations (calls_during (_handle_slice_click event) w)) = 0%nat).
Proof.
  split; [|split; [|split]].
  - intros new Hr.
    pose proof (amp_change_calls new w) as Hc.
    rewrite Hc, (ready_dipole_ready _ Hr). reflexivity.
  - intros event in_ax Hb Hin Hr.
    rewrite (click_inside_evaluations w event in_ax Hb Hin).
    rewrite (ready_dipole_ready _ Hr). reflexivity.
  - intros event in_ax Hb Hin Hm Hr.
    rewrite (click_inside_evaluations w event in_ax Hb Hin).
    destruct (click_inside_shape w event in_ax Hb Hin)
      as (_ & _ & _ & _ & _ & Hf & _).
    destruct (Hf Hm) as (Hp & Ho & _).
    rewrite ready_dipole_ready; [reflexivity|].
    unfold ready. rewrite Hp, Ho. exact Hr.
  - intros event Hb Hin.
    destruct (click_cases w event) as [[Hc _] | [_ [in_ax Hin']]].
    + rewrite Hc. reflexivity.
    + congruence.
Qed.

Lemma w_browsing_ready : ready (_state w_browsing).
Proof.
  repeat split; try (intros []; vm_compute; congruence).
  intros H. specialize (H AxX). vm_compute in H. discriminate H.
Defined.

Lemma w_browsing_mode : mode (_state w_browsing) = "slice_browser".
Proof. vm_compute. reflexivity. Defined.

Lemma field_evaluation_exactly_once_witness :
  ready (_state w_evaluated) /\
  Datatypes.length
    (evaluations (calls_during (_handle_amp_change 70) w_evaluated)) = 1%nat /\
  Datatypes.length
    (evaluations
       (calls_during (_handle_slice_click (click LEFT (Some AxY) 1 2))
          w_browsing)) = 1%nat /\
  Datatypes.length
    (evaluations
       (calls_during (_handle_slice_click (click LEFT None 0 0))
          w_evaluated)) = 0%nat.
Proof.
  split; [exact w_evaluated_ready|]. split; [|split].
  - exact (proj1 (field_evaluation_exactly_once w_evaluated) 70
             w_evaluated_ready).
  - exact (proj1 (proj2 (proj2 (field_evaluation_exactly_once w_browsing)))
             (click LEFT (Some AxY) 1 2) (mkAxes (slice_fig AxY))
             eq_refl eq_refl w_browsing_mode w_browsing_ready).
  - exact (proj2 (proj2 (proj2 (field_evaluation_exactly_once w_evaluated)))
             (click LEFT None 0 0) eq_refl eq_refl).
Defined.

(** ** Reset *)

Lemma amp_change_widget (new : Z) (w : World) :
  let g := _widget w in
  let g' := _widget (_handle_amp_change new w) in
  value (amplitude_slider g') = value (amplitude_slider g) /\
  fig_arrows g' = fig_arrows g /\
  label_dipole_pos g' = label_dipole_pos g /\
  label_dipole_ori g' = label_dipole_ori g.
Proof.
  destruct w as [[sc ch dp do_ amp lt ar md u] [lu lp lo [v d] fa] m o c t].
  unfold _handle_amp_change, _toggle_updating_state, set_slider_disabled.
  destruct u; cbn -[float_of_int PrimFloat.mul dipole_ready];
    destruct (dipole_ready _); repeat split.
Qed.

(** The slider value [_init_widget] and the reset handler compute from the
    default amplitude: [int(50e-9 * 1e9)]. *)
Lemma default_slider_value :
  int_of_float (dipole_amplitude _init_state * 1e9)%float = Some 50.
Proof. vm_compute. reflexivity. Qed.

(** The observer's rewrite of the default amplitude is one unit in the last
    place above the default itself. *)
Lemma rewritten_default_amplitude :
  (float_of_int 50 * 1e-9)%float <> dipole_amplitude _init_state.
Proof.
  intros H.
  assert (E : PrimFloat.eqb (float_of_int 50 * 1e-9)%float
                (dipole_amplitude _init_state) = true)
    by (rewrite H; vm_compute; reflexivity).
  vm_compute in E. discriminate E.
Qed.

Lemma reset_before_slider_shape (w : World) :
  let w' := reset_before_slider w in
  _state w' = _init_state /\
  _markers w' = _init_markers /\
  fig_arrows (_widget w') = [] /\
  value (amplitude_slider (_widget w')) = value (amplitude_slider (_widget w)) /\
  label_dipole_pos (_widget w') = "Not set" /\
  label_dipole_ori (_widget w') = "Not set" /\
  trace w' =
    (trace w ++
     [mkEntry c_remove_dipole_arrows (_state w);
      mkEntry c_remove_dipole_pos_markers (_state w);
      mkEntry c_remove_dipole_ori_markers (_state w);
      mkEntry (c_plot_slice AxX) _init_state;
      mkEntry (c_plot_slice AxY) _init_state;
      mkEntry (c_plot_slice AxZ) _init_state;
      mkEntry c_reset_topomaps _init_state])%list.
Proof.
  destruct w as [s g m o c t].
  unfold reset_before_slider, _plot_slice. cbn -[_init_state].
  repeat split. rewrite <- !app_assoc. reflexivity.
Qed.

Lemma reset_unfold (w : World) :
  _handle_reset_button_click w =
  _enable_crosshair_cursor
    (amplitude_slider_assign 50 (reset_before_slider w)).
Proof.
  unfold _handle_reset_button_click. fold (reset_before_slider w).
  replace (dipole_amplitude (_state (reset_before_slider w)))
    with (dipole_amplitude _init_state)
    by (now rewrite (proj1 (reset_before_slider_shape w))).
  rewrite default_slider_value. reflexivity.
Qed.

(** The reset handler's assignment to the slider, in the world it has built.
    When the slider already shows 50 nothing happens; otherwise the
    observer runs: no evaluation (no dipole is set), but the amplitude of the
    fresh state is overwritten. *)
Lemma reset_slider_assign (W : World) :
  _state W = _init_state ->
  let W2 := amplitude_slider_assign 50 W in
  _state W2 =
    (if 50 =? value (amplitude_slider (_widget W)) then _init_state
     else set_dipole_amplitude (float_of_int 50 * 1e-9)%float _init_state) /\
  _markers W2 = _markers W /\
  fig_arrows (_widget W2) = fig_arrows (_widget W) /\
  value (amplitude_slider (_widget W2)) = 50 /\
  label_dipole_pos (_widget W2) = label_dipole_pos (_widget W) /\
  label_dipole_ori (_widget W2) = label_dipole_ori (_widget W) /\
  trace W2 = trace W.
Proof.
  intros Hs W2. subst W2. unfold amplitude_slider_assign.
  change (Z.min (Z.max 50 slider_min) slider_max) with 50.
  destruct (50 =? value (amplitude_slider (_widget W))) eqn:E.
  - apply Z.eqb_eq in E. rewrite <- E. repeat split. exact Hs.
  - set (W' := set_slider_value 50 W).
    assert (Hs' : _state W' = _init_state) by exact Hs.
    assert (Hr : dipole_ready (_state W') = false)
      by (rewrite Hs'; reflexivity).
    destruct (amp_change_shape 50 W') as (Hs2 & Hm2 & _ & Ht2).
    destruct (amp_change_widget 50 W') as (Hv2 & Ha2 & Hp2 & Ho2).
    rewrite Hr, app_nil_r in Ht2. rewrite Hs' in Hs2.
    rewrite Hs2, Hm2, Hv2, Ha2, Hp2, Ho2, Ht2.
    repeat split.
Qed.

(** What the reset handler does.  The state it leaves is the default one,
    except that, when the slider was not at its default, the slider's
    observer has run and stored the amplitude it computes from the slider. *)
Lemma reset_shape (w : World) :
  let w' := _handle_reset_button_click w in
  _state w' =
    (if 50 =? value (amplitude_slider (_widget w)) then _init_state
     else set_dipole_amplitude (float_of_int 50 * 1e-9)%float _init_state) /\
  _markers w' = _init_markers /\
  fig_arrows (_widget w') = [] /\
  value (amplitude_slider (_widget w')) = 50 /\
  label_dipole_pos (_widget w') = "Not set" /\
  label_dipole_ori (_widget w') = "Not set" /\
  calls_during _handle_reset_button_click w =
    [mkEntry c_remove_dipole_arrows (_state w);
     mkEntry c_remove_dipole_pos_markers (_state w);
     mkEntry c_remove_dipole_ori_markers (_state w);
     mkEntry (c_plot_slice AxX) _init_state;
     mkEntry (c_plot_slice AxY) _init_state;
     mkEntry (c_plot_slice AxZ) _init_state;
     mkEntry c_reset_topomaps _init_state;
     mkEntry c_enable_crosshair_cursor (_state w')].
Proof.
  intros w'. subst w'. unfold calls_during. rewrite reset_unfold.
  destruct (reset_before_slider_shape w)
    as (Hs & Hm & Ha & Hv & Hp & Ho & Ht).
  set (W := reset_before_slider w) in *. clearbody W.
  destruct (reset_slider_assign W Hs) as (Hs2 & Hm2 & Ha2 & Hv2 & Hp2 & Ho2 & Ht2).
  set (W2 := amplitude_slider_assign 50 W) in *. clearbody W2.
  cbn [_enable_crosshair_cursor cursor.enable_crosshair_cursor log _state
       _markers _widget trace].
  rewrite Hs2, Hm2, Ha2, Hv2, Hp2, Ho2, Ht2, Hm, Ha, Hp, Ho, Ht, Hv.
  rewrite <- app_assoc, skipn_app_exact.
  repeat split.
Qed.

Lemma reset_no_evaluation (w : World) :
  evaluations (calls_during _handle_reset_button_click w) = [].
Proof.
  destruct (reset_shape w) as (_ & _ & _ & _ & _ & _ & Hc).
  rewrite Hc. reflexivity.
Qed.

(** ** Dipole points are never partly set

    The readiness test reads the x entries only.  Every state a session
    reaches has each dipole point fully set or unset, so the test decides
    what the specification calls defined. *)

Lemma handle_wf (e : Event) (w : World) :
  dipoles_wf (_state w) -> dipoles_wf (_state (handle e w)).
Proof.
  intros Hwf. destruct e as [event | new | new_mode |]; cbn [handle].
  - destruct (click_cases w event) as [[_ Hs] | [Hb [in_ax Hin]]].
    + rewrite Hs. exact Hwf.
    + destruct (click_inside_shape w event in_ax Hb Hin)
        as (_ & _ & _ & _ & H & _).
      exact (H Hwf).
  - unfold amplitude_slider_assign.
    destruct (_ =? _); [exact Hwf|].
    rewrite (proj1 (amp_change_shape _ _)). exact Hwf.
  - unfold _handle_view_mode_change, _set_view_mode.
    destruct (new_mode =? "Slice Browser")%string;
      [|destruct (new_mode =? "Set Dipole Origin")%string;
        [|destruct (new_mode =? "Set Dipole Orientation")%string]];
      exact Hwf.
  - rewrite (proj1 (reset_shape w)).
    destruct (_ =? _); split; right; intros []; reflexivity.
Qed.

Lemma reachable_wf (events : list Event) : dipoles_wf (_state (run events)).
Proof.
  unfold run. generalize init_wf. generalize init.
  induction events as [|e events IH]; intros w Hwf; [exact Hwf|].
  cbn [fold_left]. apply IH, handle_wf, Hwf.
Qed.

(** C4, at a session whose slider was dragged to 70 nAm: the reset handler
    does not restore the default record.  Its assignment of 50 to the slider
    wakes the slider's observer, which stores [50 * 1e-9] in the fresh state;
    as floats that is not the default [50e-9]. *)
Theorem reset_after_slider_move_misses_default :
  value (amplitude_slider (_widget w_moved)) = 70 /\
  dipole_amplitude (_state (_handle_reset_button_click w_moved)) =
    (float_of_int 50 * 1e-9)%float /\
  dipole_amplitude (_state (_handle_reset_button_click w_moved)) <>
    dipole_amplitude _init_state /\
  _state (_handle_reset_button_click w_moved) <> _init_state.
Proof.
  assert (Hv : value (amplitude_slider (_widget w_moved)) = 70)
    by (vm_compute; reflexivity).
  destruct (reset_shape w_moved) as (Hs & _).
  rewrite Hv in Hs. change (50 =? 70) with false in Hs. cbv iota in Hs.
  split; [exact Hv|]. rewrite Hs. split; [reflexivity|].
  split.
  - exact rewritten_default_amplitude.
  - intros H. apply rewritten_default_amplitude.
    change (float_of_int 50 * 1e-9)%float
      with (dipole_amplitude
              (set_dipole_amplitude (float_of_int 50 * 1e-9)%float _init_state)).
    rewrite H. reflexivity.
Qed.

(** ** The busy flag across the handlers *)

Lemma label_consistent_with_output (o : list Call) (c : bool) (w : World) :
  label_consistent w -> label_consistent (with_output o c w).
Proof. intros H. exact H. Qed.

Lemma click_left_label (w : World) (event : MouseEvent) :
  button event = LEFT -> label_consistent (_handle_slice_click event w).
Proof.
  intros Hb. unfold _handle_slice_click, capture_clear_output,
    _handle_slice_click__wrapped.
  rewrite Hb. cbn [negb MouseButton_eqb].
  destruct (inaxes event) as [in_ax|].
  - destruct (slice.get_axis_names_from_slice _ _) as [x_idx y_idx].
    apply label_consistent_with_output, toggle_label.
  - apply label_consistent_with_output, toggle_label.
Qed.

Lemma view_mode_change_frame (new_mode : string) (w : World) :
  trace (_handle_view_mode_change new_mode w) = trace w /\
  updating (_state (_handle_view_mode_change new_mode w)) =
    updating (_state w).
Proof.
  unfold _handle_view_mode_change, _set_view_mode.
  destruct (new_mode =? "Slice Browser")%string;
    [|destruct (new_mode =? "Set Dipole Origin")%string;
      [|destruct (new_mode =? "Set Dipole Orientation")%string]];
    split; reflexivity.
Qed.

Lemma idle_label (w : World) :
  label_consistent w -> updating (_state w) = false ->
  label_updating (_widget w) = "Ready.".
Proof. unfold label_consistent. intros -> ->. reflexivity. Qed.

(** ** Browsing *)

(** The loop over [widget['fig']] finds the view that was clicked. *)
Lemma clicked_axis_slice_fig (a : Axis) :
  clicked_axis fig_keys (slice_fig a) AxX = a.
Proof. destruct a; reflexivity. Qed.

(** C6: a left click inside the slice view of [axis], handled in mode
    slice_browser, leaves dipole position, dipole orientation, amplitude and
    mode as they were, and the busy flag, the label texts and the arrow list
    too; of the slice coordinates and the crosshair only the entries of the
    two axes spanning the clicked plane change, to the clicked point, and of
    those slice coordinates only [val], not [min] or [max]. *)
Theorem browsing_click_moves_only_the_plane (w : World) (event : MouseEvent)
    (in_ax : Axes)
    (Hb : button event = LEFT) (Hin : inaxes event = Some in_ax)
    (Hm : mode (_state w) = "slice_browser") :
  let axis := clicked_axis fig_keys (figure in_ax) AxX in
  let s := _state w in
  let s' := _state (_handle_slice_click event w) in
  (dipole_pos s' = dipole_pos s /\ dipole_ori s' = dipole_ori s /\
   dipole_amplitude s' = dipole_amplitude s /\ mode s' = mode s) /\
  only_plane_moved axis s s' /\
  updating s' = updating s /\
  forall x_idx y_idx,
    slice.get_axis_names_from_slice axis fig_keys = (x_idx, y_idx) ->
    sc_val (getitem (slice_coord s') x_idx) = xdata event /\
    sc_val (getitem (slice_coord s') y_idx) = ydata event /\
    getitem (crosshair_pos s') x_idx = xdata event /\
    getitem (crosshair_pos s') y_idx = ydata event.
Proof.
  intros axis s s'.
  destruct (click_inside_shape w event in_ax Hb Hin)
    as (_ & _ & _ & Hu & _ & Hf & Hw).
  specialize (Hf Hm). specialize (Hw Hm).
  split; [|split; [exact Hf | split; [exact Hu | exact Hw]]].
  destruct Hf as (Hp & Ho & Ha & Hmd & _).
  repeat split; assumption.
Qed.

Lemma browsing_click_witness :
  let s := _state w_browsing in
  let s' := _state (_handle_slice_click (click LEFT (Some AxY) 1 2)
                      w_browsing) in
  dipole_pos s' = dipole_pos s /\ dipole_ori s' = dipole_ori s /\
  dipole_amplitude s' = dipole_amplitude s /\ mode s' = mode s /\
  getitem (slice_coord s') AxY = getitem (slice_coord s) AxY /\
  getitem (crosshair_pos s') AxX = inject_Z 1 /\
  getitem (crosshair_pos s') AxZ = inject_Z 2.
Proof.
  destruct (browsing_click_moves_only_the_plane w_browsing
              (click LEFT (Some AxY) 1 2) (mkAxes (slice_fig AxY))
              eq_refl eq_refl w_browsing_mode)
    as ((Hp & Ho & Ha & Hmd) & Hf & _ & Hw).
  destruct Hf as (_ & _ & _ & _ & _ & _ & Hsc & _).
  destruct (Hw AxX AxZ eq_refl) as (_ & _ & Hx & Hz).
  exact (conj Hp (conj Ho (conj Ha (conj Hmd (conj Hsc (conj Hx Hz)))))).
Defined.

(** * Further properties of the controller *)

(** ** The slice-click handler as a chain of stages *)

(** The guarded field evaluation both handlers end with. *)
Definition evoked_stage (w : World) : World :=
  if dipole_ready (_state w) then evoked_field.plot_evoked w else w.

(** A left click inside an axes, stage by stage. *)
Definition click_inside_chain (x y : Q) (x_idx y_idx axis : Axis)
    (w : World) : World :=
  let w := with_output [] true w in
  let w := _toggle_updating_state w in
  let w := mode_callback x y x_idx y_idx axis w in
  let w := _plot_dipole_markers_and_arrow w in
  let w := _enable_crosshair_cursor w in
  let w := evoked_stage w in
  let w := _toggle_updating_state w in
  with_output (output w) false w.

Lemma click_inside_unfold (w : World) (event : MouseEvent) (in_ax : Axes)
    (x_idx y_idx : Axis) :
  button event = LEFT -> inaxes event = Some in_ax ->
  slice.get_axis_names_from_slice
    (clicked_axis fig_keys (figure in_ax) AxX) fig_keys = (x_idx, y_idx) ->
  _handle_slice_click event w =
  click_inside_chain (xdata event) (ydata event) x_idx y_idx
    (clicked_axis fig_keys (figure in_ax) AxX) w.
Proof.
  intros Hb Hin Hax.
  unfold _handle_slice_click, capture_clear_output,
    _handle_slice_click__wrapped.
  rewrite Hb, Hin. cbn [negb MouseButton_eqb]. rewrite Hax.
  unfold click_inside_chain, evoked_stage, mode_callback.
  change (with_output (output (with_output [] (capturing w) w)) true
            (with_output [] (capturing w) w))
    with (with_output [] true w).
  set (w0 := with_output [] true w). clearbody w0.
  set (w1 := _toggle_updating_state w0). clearbody w1.
  cbv zeta. reflexivity.
Qed.

(** The callback the dispatch of [_handle_slice_click] calls in mode [m];
    none when [m] is none of the three modes. *)
Definition callback_calls (m : string) : list Call :=
  if (m =? "slice_browser")%string then
    [c_handle_click_in_slice_browser_mode]
  else if (m =? "set_dipole_pos")%string then
    [c_handle_click_in_set_dipole_pos_mode]
  else if (m =? "set_dipole_ori")%string then
    [c_handle_click_in_set_dipole_ori_mode]
  else [].

(** The calls of [_plot_dipole_markers_and_arrow] in state [s]. *)
Definition marker_calls (s : State) : list Call :=
  ((if is_not_None (dx (dipole_pos s)) then [c_plot_dipole_pos_marker]
    else []) ++
   (if is_not_None (dx (dipole_ori s)) then [c_plot_dipole_ori_marker]
    else []) ++
   (if dipole_ready s then [c_draw_dipole_arrows] else []))%list.

(** The call of the guarded evaluation in state [s]. *)
Definition evoked_calls (s : State) : list Call :=
  if dipole_ready s then [c_plot_evoked] else [].

(** From [w] to [w'] exactly the calls [cs] were made, in this order; what
    they print is in the output widget when that one is capturing. *)
Definition logs (cs : list Call) (w w' : World) : Prop :=
  map call (trace w') = (map call (trace w) ++ cs)%list /\
  output w' = (if capturing w then output w ++ cs else output w)%list /\
  capturing w' = capturing w.

(** What no stage of a click touches. *)
Definition keeps (w w' : World) : Prop :=
  mode (_state w') = mode (_state w) /\
  dipole_amplitude (_state w') = dipole_amplitude (_state w) /\
  amplitude_slider (_widget w') = amplitude_slider (_widget w) /\
  label_dipole_pos (_widget w') = label_dipole_pos (_widget w) /\
  label_dipole_ori (_widget w') = label_dipole_ori (_widget w).

Lemma logs_trans (cs cs' : list Call) (a b c : World) :
  logs cs a b -> logs cs' b c -> logs (cs ++ cs') a c.
Proof.
  intros (Ht & Ho & Hc) (Ht' & Ho' & Hc'). repeat split.
  - rewrite Ht', Ht, app_assoc. reflexivity.
  - rewrite Ho', Hc, Ho. destruct (capturing a); [|reflexivity].
    rewrite app_assoc. reflexivity.
  - congruence.
Qed.

Lemma logs_log (c : Call) (w : World) : logs [c] w (log c w).
Proof.
  repeat split. cbn [log trace]. rewrite map_app. reflexivity.
Qed.

Lemma logs_nil_same (w w' : World) :
  trace w' = trace w -> output w' = output w -> capturing w' = capturing w ->
  logs [] w w'.
Proof.
  intros Ht Ho Hc. repeat split.
  - rewrite Ht, app_nil_r. reflexivity.
  - rewrite Ho. destruct (capturing w); [rewrite app_nil_r|]; reflexivity.
  - exact Hc.
Qed.

(** A step after [logs] that leaves log, output and capturing alone. *)
Lemma logs_then (cs : list Call) (w w1 w2 : World) :
  logs cs w w1 -> trace w2 = trace w1 -> output w2 = output w1 ->
  capturing w2 = capturing w1 -> logs cs w w2.
Proof.
  intros (Ht & Ho & Hc) Ht2 Ho2 Hc2. repeat split; congruence.
Qed.

Lemma keeps_refl (w : World) : keeps w w.
Proof. repeat split. Qed.

Lemma keeps_trans (a b c : World) : keeps a b -> keeps b c -> keeps a c.
Proof.
  intros (H1 & H2 & H3 & H4 & H5) (K1 & K2 & K3 & K4 & K5).
  repeat split; congruence.
Qed.

Lemma toggle_logs (w : World) : logs [] w (_toggle_updating_state w).
Proof.
  apply logs_nil_same; unfold _toggle_updating_state;
    cbn [_state with_state]; destruct (updating _); reflexivity.
Qed.

Lemma toggle_keeps (w : World) : keeps w (_toggle_updating_state w).
Proof.
  unfold keeps, _toggle_updating_state. cbn [_state with_state].
  destruct (updating _); repeat split.
Qed.

Lemma mode_callback_logs (x y : Q) (x_idx y_idx axis : Axis) (w : World) :
  logs (callback_calls (mode (_state w))) w
    (mode_callback x y x_idx y_idx axis w).
Proof.
  unfold mode_callback, callback_calls.
  destruct (mode (_state w) =? "slice_browser")%string;
    [|destruct (mode (_state w) =? "set_dipole_pos")%string;
      [|destruct (mode (_state w) =? "set_dipole_ori")%string]].
  - eapply logs_then; [apply logs_log| | |]; reflexivity.
  - eapply logs_then; [apply logs_log| | |]; reflexivity.
  - eapply logs_then; [apply logs_log| | |]; reflexivity.
  - apply logs_nil_same; reflexivity.
Qed.

Lemma mode_callback_keeps (x y : Q) (x_idx y_idx axis : Axis) (w : World) :
  keeps w (mode_callback x y x_idx y_idx axis w) /\
  updating (_state (mode_callback x y x_idx y_idx axis w)) =
    updating (_state w).
Proof.
  unfold mode_callback, keeps.
  destruct (mode (_state w) =? "slice_browser")%string;
    [|destruct (mode (_state w) =? "set_dipole_pos")%string;
      [|destruct (mode (_state w) =? "set_dipole_ori")%string]];
    repeat split.
Qed.

Lemma markers_stage_logs (w : World) :
  logs (marker_calls (_state w)) w (_plot_dipole_markers_and_arrow w) /\
  keeps w (_plot_dipole_markers_and_arrow w).
Proof.
  unfold _plot_dipole_markers_and_arrow, marker_calls.
  set (w1 := if is_not_None (dx (dipole_pos (_state w)))
             then dipole.plot_dipole_pos_marker w else w).
  assert (H1 : logs (if is_not_None (dx (dipole_pos (_state w)))
                     then [c_plot_dipole_pos_marker] else []) w w1 /\
               keeps w w1 /\ _state w1 = _state w).
  { subst w1. destruct (is_not_None _).
    - split; [|split; [repeat split | reflexivity]].
      eapply logs_then; [apply logs_log| | |]; reflexivity.
    - split; [|split; [apply keeps_refl | reflexivity]].
      apply logs_nil_same; reflexivity. }
  destruct H1 as (L1 & K1 & S1). clearbody w1.
  set (w2 := if is_not_None (dx (dipole_ori (_state w1)))
             then dipole.plot_dipole_ori_marker w1 else w1).
  assert (H2 : logs (if is_not_None (dx (dipole_ori (_state w1)))
                     then [c_plot_dipole_ori_marker] else []) w1 w2 /\
               keeps w1 w2 /\ _state w2 = _state w1).
  { subst w2. destruct (is_not_None (dx (dipole_ori (_state w1)))).
    - split; [|split; [repeat split | reflexivity]].
      eapply logs_then; [apply logs_log| | |]; reflexivity.
    - split; [|split; [apply keeps_refl | reflexivity]].
      apply logs_nil_same; reflexivity. }
  destruct H2 as (L2 & K2 & S2). clearbody w2.
  rewrite S1 in L2. rewrite S2, S1.
  assert (H3 : logs (if dipole_ready (_state w)
                     then [c_draw_dipole_arrows] else []) w2
                 (if dipole_ready (_state w)
                  then dipole.draw_dipole_arrows w2 else w2) /\
               keeps w2 (if dipole_ready (_state w)
                         then dipole.draw_dipole_arrows w2 else w2)).
  { destruct (dipole_ready (_state w)).
    - split; [|repeat split].
      eapply logs_then; [apply logs_log| | |]; reflexivity.
    - split; [|apply keeps_refl]. apply logs_nil_same; reflexivity. }
  destruct H3 as (L3 & K3).
  split.
  - exact (logs_trans _ _ _ _ _ L1 (logs_trans _ _ _ _ _ L2 L3)).
  - exact (keeps_trans _ _ _ K1 (keeps_trans _ _ _ K2 K3)).
Qed.

Lemma evoked_stage_logs (w : World) :
  logs (evoked_calls (_state w)) w (evoked_stage w) /\
  keeps w (evoked_stage w) /\ _state (evoked_stage w) = _state w /\
  _markers (evoked_stage w) = _markers w /\
  _widget (evoked_stage w) = _widget w.
Proof.
  unfold evoked_stage, evoked_calls. destruct (dipole_ready _).
  - split; [apply logs_log | repeat split].
  - split; [apply logs_nil_same; reflexivity | repeat split].
Qed.

Lemma marker_calls_set_updating (b : bool) (s : State) :
  marker_calls (set_updating b s) = marker_calls s.
Proof. reflexivity. Qed.

Lemma evoked_calls_set_updating (b : bool) (s : State) :
  evoked_calls (set_updating b s) = evoked_calls s.
Proof. reflexivity. Qed.

Lemma calls_of_logs (handler : World -> World) (cs : list Call) (w : World) :
  map call (trace (handler w)) = (map call (trace w) ++ cs)%list ->
  map call (calls_during handler w) = cs.
Proof.
  intros H. unfold calls_during.
  rewrite <- skipn_map, H, <- (length_map call (trace w)).
  apply skipn_app_exact.
Qed.

(** What the chain of a left click inside an axes does: the calls it makes,
    in order; what the output widget holds afterwards; what it leaves alone.
    [s'] is the state the click leaves. *)
Lemma click_inside_chain_spec (x y : Q) (x_idx y_idx axis : Axis) (w : World) :
  let w' := click_inside_chain x y x_idx y_idx axis w in
  let cs := (callback_calls (mode (_state w)) ++ marker_calls (_state w') ++
             [c_enable_crosshair_cursor] ++ evoked_calls (_state w'))%list in
  map call (trace w') = (map call (trace w) ++ cs)%list /\
  output w' = cs /\ capturing w' = false /\ keeps w w'.
Proof.
  unfold click_inside_chain.
  set (w0 := with_output [] true w).
  set (w1 := _toggle_updating_state w0).
  set (w2 := mode_callback x y x_idx y_idx axis w1).
  set (w3 := _plot_dipole_markers_and_arrow w2).
  set (w4 := _enable_crosshair_cursor w3).
  set (w5 := evoked_stage w4).
  set (w6 := _toggle_updating_state w5).
  cbv zeta.
  assert (L1 : logs [] w0 w1) by apply toggle_logs.
  assert (K1 : keeps w0 w1) by apply toggle_keeps.
  assert (L2 : logs (callback_calls (mode (_state w1))) w1 w2)
    by apply mode_callback_logs.
  assert (K2 : keeps w1 w2) by apply mode_callback_keeps.
  destruct (markers_stage_logs w2) as [L3 K3]. fold w3 in L3, K3.
  assert (S3 : _state w3 = _state w2) by apply markers_stage_state.
  assert (L4 : logs [c_enable_crosshair_cursor] w3 w4) by apply logs_log.
  assert (K4 : keeps w3 w4) by (repeat split).
  assert (S4 : _state w4 = _state w3) by reflexivity.
  destruct (evoked_stage_logs w4) as (L5 & K5 & S5 & _). fold w5 in L5, K5, S5.
  assert (L6 : logs [] w5 w6) by apply toggle_logs.
  assert (K6 : keeps w5 w6) by apply toggle_keeps.
  assert (S6 : _state w6 =
               set_updating (negb (updating (_state w5))) (_state w5))
    by apply toggle_state.
  assert (Hm : mode (_state w1) = mode (_state w)) by apply K1.
  change (_state (with_output (output w6) false w6)) with (_state w6).
  rewrite S6, marker_calls_set_updating, evoked_calls_set_updating.
  rewrite S5, S4, S3. rewrite S4, S3 in L5. rewrite Hm in L2.
  pose proof (logs_trans _ _ _ _ _ L1
               (logs_trans _ _ _ _ _ L2
                  (logs_trans _ _ _ _ _ L3
                     (logs_trans _ _ _ _ _ L4
                        (logs_trans _ _ _ _ _ L5 L6))))) as (Ht & Ho & Hc).
  rewrite app_nil_r in Ht, Ho.
  clearbody w1 w2 w3 w4 w5 w6.
  split; [|split; [|split]].
  - exact Ht.
  - exact Ho.
  - reflexivity.
  - exact (keeps_trans _ _ _ K1 (keeps_trans _ _ _ K2 (keeps_trans _ _ _ K3
             (keeps_trans _ _ _ K4 (keeps_trans _ _ _ K5 K6))))).
Qed.

(** Every slice click, whatever the button and the place: the calls it makes
    are what the output widget holds afterwards; the widget is not capturing
    any more; mode, amplitude, slider and dipole labels are as before. *)
Lemma click_any_spec (w : World) (event : MouseEvent) :
  output (_handle_slice_click event w) =
    map call (calls_during (_handle_slice_click event) w) /\
  capturing (_handle_slice_click event w) = false /\
  keeps w (_handle_slice_click event w).
Proof.
  destruct (button event) eqn:Hb;
    try (assert (Hn : button event <> LEFT) by congruence;
         split; [|rewrite (click_not_left_shape w event Hn); repeat split];
         rewrite calls_during_none;
         rewrite (click_not_left_shape w event Hn); reflexivity).
  destruct (inaxes event) as [in_ax|] eqn:Hin.
  - destruct (slice.get_axis_names_from_slice
                (clicked_axis fig_keys (figure in_ax) AxX) fig_keys)
      as [x_idx y_idx] eqn:Hax.
    destruct (click_inside_chain_spec (xdata event) (ydata event) x_idx y_idx
                (clicked_axis fig_keys (figure in_ax) AxX) w)
      as (Ht & Ho & Hc & Hk).
    rewrite <- (click_inside_unfold w event in_ax x_idx y_idx Hb Hin Hax)
      in Ht, Ho, Hc, Hk.
    split; [|split; assumption].
    rewrite Ho. symmetry. apply calls_of_logs. exact Ht.
  - split.
    + rewrite calls_during_none.
      * rewrite (click_outside_shape w event Hb Hin). reflexivity.
      * rewrite (click_outside_shape w event Hb Hin). cbn [trace with_output].
        now rewrite !toggle_trace.
    + rewrite (click_outside_shape w event Hb Hin). split; [reflexivity|].
      apply (keeps_trans _ (_toggle_updating_state w));
        [apply toggle_keeps|].
      apply (keeps_trans _ (_toggle_updating_state (_toggle_updating_state w)));
        [apply toggle_keeps | repeat split].
Qed.

(** The calls of a left click inside an axes (lines 203-244). *)
Lemma click_inside_calls (w : World) (event : MouseEvent) (in_ax : Axes) :
  button event = LEFT -> inaxes event = Some in_ax ->
  let s' := _state (_handle_slice_click event w) in
  map call (calls_during (_handle_slice_click event) w) =
  (callback_calls (mode (_state w)) ++ marker_calls s' ++
   [c_enable_crosshair_cursor] ++ evoked_calls s')%list.
Proof.
  intros Hb Hin.
  destruct (slice.get_axis_names_from_slice
              (clicked_axis fig_keys (figure in_ax) AxX) fig_keys)
    as [x_idx y_idx] eqn:Hax.
  destruct (click_inside_chain_spec (xdata event) (ydata event) x_idx y_idx
              (clicked_axis fig_keys (figure in_ax) AxX) w) as (Ht & _).
  rewrite <- (click_inside_unfold w event in_ax x_idx y_idx Hb Hin Hax) in Ht.
  apply calls_of_logs. exact Ht.
Qed.

(** ** What the handlers call *)

Lemma callback_calls_cases (m : string) (c : Call) :
  In c (callback_calls m) ->
  c = c_handle_click_in_slice_browser_mode \/
  c = c_handle_click_in_set_dipole_pos_mode \/
  c = c_handle_click_in_set_dipole_ori_mode.
Proof.
  unfold callback_calls.
  destruct (m =? "slice_browser")%string;
    [|destruct (m =? "set_dipole_pos")%string;
      [|destruct (m =? "set_dipole_ori")%string]];
    cbn; intuition.
Qed.



(** X2: in every slice click, arrows are drawn exactly when the field is
    evaluated: the click calls [draw_dipole_arrows] if and only if it calls
    [plot_evoked]. *)
Theorem arrows_drawn_iff_field_evaluated (w : World) (event : MouseEvent) :
  In c_draw_dipole_arrows
    (map call (calls_during (_handle_slice_click event) w)) <->
  In c_plot_evoked (map call (calls_during (_handle_slice_click event) w)).
Proof.
  destruct (click_cases w event) as [[Hc _] | [Hb [in_ax Hin]]].
  - rewrite Hc. reflexivity.
  - rewrite (click_inside_calls w event in_ax Hb Hin).
    set (s' := _state (_handle_slice_click event w)).
    rewrite !in_app_iff. unfold marker_calls, evoked_calls.
    rewrite !in_app_iff.
    pose proof (callback_calls_cases (mode (_state w))) as Hcb.
    destruct (is_not_None (dx (dipole_pos s')));
      destruct (is_not_None (dx (dipole_ori s')));
      destruct (dipole_ready s'); cbn; split; intros H;
      repeat match goal with
             | H : _ \/ _ |- _ => destruct H
             | H : False |- _ => destruct H
             | H : In _ (callback_calls _) |- _ =>
                 apply Hcb in H
             end;
      try discriminate; tauto.
Qed.

(** ** The amplitude handler and the slider *)

Lemma amp_change_more (new : Z) (w : World) :
  let w' := _handle_amp_change new w in
  disabled (amplitude_slider (_widget w')) = false /\
  logs (evoked_calls (_state w)) w w' /\
  mode (_state w') = mode (_state w).
Proof.
  unfold _handle_amp_change.
  set (w1 := _toggle_updating_state w).
  set (w2 := with_state
               (set_dipole_amplitude (float_of_int new * 1e-9)%float
                  (_state (set_slider_disabled true w1)))
               (set_slider_disabled true w1)).
  fold (evoked_stage w2).
  set (w3 := evoked_stage w2).
  set (w4 := _toggle_updating_state w3).
  cbv zeta.
  assert (L1 : logs [] w w1) by apply toggle_logs.
  assert (K1 : keeps w w1) by apply toggle_keeps.
  assert (L2 : logs [] w1 w2) by (apply logs_nil_same; reflexivity).
  assert (M2 : mode (_state w2) = mode (_state w1)) by reflexivity.
  assert (R2 : evoked_calls (_state w2) = evoked_calls (_state w)).
  { subst w2 w1. cbn [_state with_state set_slider_disabled with_widget].
    rewrite toggle_state. reflexivity. }
  destruct (evoked_stage_logs w2) as (L3 & K3 & _). fold w3 in L3, K3.
  assert (L4 : logs [] w3 w4) by apply toggle_logs.
  assert (K4 : keeps w3 w4) by apply toggle_keeps.
  rewrite R2 in L3.
  pose proof (logs_trans _ _ _ _ _ L1
               (logs_trans _ _ _ _ _ L2 (logs_trans _ _ _ _ _ L3 L4))) as L.
  rewrite app_nil_r in L.
  clearbody w1 w2 w3 w4.
  split; [reflexivity|]. split.
  - eapply logs_then; [exact L | | |]; reflexivity.
  - change (mode (_state w4) = mode (_state w)).
    destruct K1 as (E1 & _). destruct K3 as (E3 & _). destruct K4 as (E4 & _).
    congruence.
Qed.

(** Every position of the slider survives the way to the state and back:
    [int((v * 1e-9) * 1e9) = v] in binary64 arithmetic, for v from 5 to 100.
    Checked position by position. *)
Lemma amplitude_round_trip_table :
  forallb
    (fun v =>
       match int_of_float (float_of_int v * 1e-9 * 1e9)%float with
       | Some n => n =? v
       | None => false
       end)
    (map Z.of_nat (seq 5 96)) = true.
Proof. vm_compute. reflexivity. Qed.

Lemma amplitude_round_trip (v : Z) :
  slider_min <= v <= slider_max ->
  int_of_float (float_of_int v * 1e-9 * 1e9)%float = Some v.
Proof.
  unfold slider_min, slider_max. intros Hv.
  pose proof amplitude_round_trip_table as T.
  rewrite forallb_forall in T.
  specialize (T v).
  destruct (int_of_float (float_of_int v * 1e-9 * 1e9)%float) as [n|].
  - f_equal. apply Z.eqb_eq. apply T.
    replace v with (Z.of_nat (Z.to_nat v)) by lia.
    apply in_map, in_seq. lia.
  - assert (false = true); [|discriminate]. apply T.
    replace v with (Z.of_nat (Z.to_nat v)) by lia.
    apply in_map, in_seq. lia.
Qed.

(** X3: the amplitude [_handle_amp_change] stores for a slider position
    converts back to that position the way [_init_widget] and the reset
    handler convert: [int(state['dipole_amplitude'] * 1e9)] is the slider's
    value again, for every position from 5 to 100. *)
Theorem stored_amplitude_reads_back (w : World) (new : Z)
    (H : slider_min <= new <= slider_max) :
  int_of_float
    (dipole_amplitude (_state (_handle_amp_change new w)) * 1e9)%float =
  Some new.
Proof.
  rewrite (proj1 (amp_change_shape new w)). cbn [dipole_amplitude set_dipole_amplitude].
  apply amplitude_round_trip. exact H.
Qed.

Lemma stored_amplitude_reads_back_witness :
  slider_min <= 15 <= slider_max /\
  int_of_float
    (dipole_amplitude (_state (_handle_amp_change 15 init)) * 1e9)%float =
  Some 15.
Proof.
  assert (H : slider_min <= 15 <= slider_max) by (unfold slider_min, slider_max; lia).
  split; [exact H|].
  exact (stored_amplitude_reads_back init 15 H).
Defined.

(** X4: an amplitude change writes [float(new) * 1e-9] to the state's
    amplitude and nothing else of the state; the busy flag is back where it
    was.  The slider keeps its value and is enabled again; markers, arrows
    and the dipole labels are untouched; the status label agrees with the
    busy flag. *)
Theorem amp_change_frame (w : World) (new : Z) :
  let w' := _handle_amp_change new w in
  _state w' =
    set_dipole_amplitude (float_of_int new * 1e-9)%float (_state w) /\
  value (amplitude_slider (_widget w')) = value (amplitude_slider (_widget w)) /\
  disabled (amplitude_slider (_widget w')) = false /\
  _markers w' = _markers w /\
  fig_arrows (_widget w') = fig_arrows (_widget w) /\
  label_dipole_pos (_widget w') = label_dipole_pos (_widget w) /\
  label_dipole_ori (_widget w') = label_dipole_ori (_widget w) /\
  label_consistent w'.
Proof.
  intros w'. subst w'.
  destruct (amp_change_shape new w) as (Hs & Hm & Hl & _).
  destruct (amp_change_widget new w) as (Hv & Ha & Hp & Ho).
  destruct (amp_change_more new w) as (Hd & _).
  repeat split; assumption.
Qed.

(** ** What holds between two events *)

(** The mode is one of the three the dispatch of a click knows. *)
Definition valid_mode (w : World) : Prop :=
  mode (_state w) = "slice_browser" \/ mode (_state w) = "set_dipole_pos" \/
  mode (_state w) = "set_dipole_ori".

(** No handler is running: the busy flag is false, the status label reads
    'Ready.', the slider is enabled and the output widget is not capturing. *)
Definition idle (w : World) : Prop :=
  updating (_state w) = false /\ label_updating (_widget w) = "Ready." /\
  disabled (amplitude_slider (_widget w)) = false /\ capturing w = false.

(** The amplitude of the state is the default one while the slider shows its
    default, or the one the amplitude handler computes from the slider's
    value; the value is inside the slider's bounds. *)
Definition slider_tracks (w : World) : Prop :=
  let v := value (amplitude_slider (_widget w)) in
  slider_min <= v <= slider_max /\
  ((dipole_amplitude (_state w) = dipole_amplitude _init_state /\ v = 50) \/
   dipole_amplitude (_state w) = (float_of_int v * 1e-9)%float).

Definition session_inv (w : World) : Prop :=
  valid_mode w /\ idle w /\ slider_tracks w.

Lemma click_updating (w : World) (event : MouseEvent) :
  updating (_state (_handle_slice_click event w)) = updating (_state w).
Proof.
  destruct (click_cases w event) as [[_ Hs] | [Hb [in_ax Hin]]].
  - rewrite Hs. reflexivity.
  - destruct (click_inside_shape w event in_ax Hb Hin) as (_ & _ & _ & Hu & _).
    exact Hu.
Qed.

Lemma click_idle (w : World) (event : MouseEvent) :
  idle w -> idle (_handle_slice_click event w).
Proof.
  intros (Hu & Hl & Hd & Hc).
  destruct (click_any_spec w event) as (_ & Hc' & (_ & _ & Hsl & _)).
  pose proof (click_updating w event) as Hu'. rewrite Hu in Hu'.
  split; [exact Hu' | split; [|split; [rewrite Hsl; exact Hd | exact Hc']]].
  destruct (button event) eqn:Hb;
    try (assert (Hn : button event <> LEFT) by congruence;
         rewrite (click_not_left_shape w event Hn); exact Hl).
  apply idle_label; [apply click_left_label; exact Hb | exact Hu'].
Qed.

Lemma slider_assign_cases (v : Z) (w : World) :
  let v' := Z.min (Z.max v slider_min) slider_max in
  slider_min <= v' <= slider_max /\
  ((v' = value (amplitude_slider (_widget w)) /\
    amplitude_slider_assign v w = w) \/
   (v' <> value (amplitude_slider (_widget w)) /\
    amplitude_slider_assign v w =
      _handle_amp_change v' (set_slider_value v' w))).
Proof.
  intros v'. split; [unfold slider_min, slider_max in *; subst v'; lia|].
  unfold amplitude_slider_assign. fold v'.
  destruct (v' =? value (amplitude_slider (_widget w))) eqn:E.
  - left. apply Z.eqb_eq in E. split; [exact E | reflexivity].
  - right. apply Z.eqb_neq in E. split; [exact E | reflexivity].
Qed.

(** What an assignment to the slider that changes its value leaves behind. *)
Lemma slider_assign_changed (v' : Z) (w : World) :
  let w' := _handle_amp_change v' (set_slider_value v' w) in
  _state w' = set_dipole_amplitude (float_of_int v' * 1e-9)%float (_state w) /\
  value (amplitude_slider (_widget w')) = v' /\
  disabled (amplitude_slider (_widget w')) = false /\
  capturing w' = capturing w /\
  label_consistent w'.
Proof.
  intros w'. subst w'.
  destruct (amp_change_shape v' (set_slider_value v' w)) as (Hs & _ & Hl & _).
  destruct (amp_change_widget v' (set_slider_value v' w)) as (Hv & _).
  destruct (amp_change_more v' (set_slider_value v' w))
    as (Hd & (_ & _ & Hc) & _).
  repeat split; assumption.
Qed.

Lemma slider_assign_inv (v : Z) (w : World) :
  session_inv w -> session_inv (amplitude_slider_assign v w).
Proof.
  intros (Hm & (Hu & Hl & Hd & Hc) & Ht).
  destruct (slider_assign_cases v w) as (Hb & [[_ ->] | [_ ->]]);
    [exact (conj Hm (conj (conj Hu (conj Hl (conj Hd Hc))) Ht))|].
  set (v' := Z.min (Z.max v slider_min) slider_max) in *.
  destruct (slider_assign_changed v' w) as (Hs & Hv & Hd' & Hc' & Hl').
  assert (Hu' : updating (_state (_handle_amp_change v' (set_slider_value v' w)))
                = false) by (rewrite Hs; exact Hu).
  split; [|split].
  - unfold valid_mode. rewrite Hs. exact Hm.
  - split; [exact Hu'|]. split; [apply idle_label; assumption|].
    split; [exact Hd' | rewrite Hc'; exact Hc].
  - unfold slider_tracks. cbv zeta. rewrite Hv. split; [exact Hb|].
    right. rewrite Hs. reflexivity.
Qed.

Lemma view_mode_change_inv (new_mode : string) (w : World) :
  session_inv w -> session_inv (_handle_view_mode_change new_mode w).
Proof.
  intros (Hm & Hi & Ht).
  unfold _handle_view_mode_change, _set_view_mode.
  destruct (new_mode =? "Slice Browser")%string;
    [|destruct (new_mode =? "Set Dipole Origin")%string;
      [|destruct (new_mode =? "Set Dipole Orientation")%string]];
    (split; [|split; [exact Hi | exact Ht]]).
  - left. reflexivity.
  - right. left. reflexivity.
  - right. right. reflexivity.
  - exact Hm.
Qed.

Lemma reset_before_slider_widget (w : World) :
  let W := reset_before_slider w in
  label_updating (_widget W) = label_updating (_widget w) /\
  amplitude_slider (_widget W) = amplitude_slider (_widget w) /\
  capturing W = capturing w.
Proof.
  destruct w as [s g m o c t].
  unfold reset_before_slider, _plot_slice. cbn -[_init_state].
  repeat split.
Qed.

Lemma reset_inv (w : World) :
  session_inv w -> session_inv (_handle_reset_button_click w).
Proof.
  intros (Hm & (Hu & Hl & Hd & Hc) & Ht).
  rewrite reset_unfold.
  destruct (reset_before_slider_shape w) as (Hs & _).
  destruct (reset_before_slider_widget w) as (Hl0 & Hsl0 & Hc0).
  set (W := reset_before_slider w) in *. clearbody W.
  destruct (slider_assign_cases 50 W) as (Hb & Hcase).
  change (Z.min (Z.max 50 slider_min) slider_max) with 50 in Hb, Hcase.
  unfold session_inv, valid_mode, idle, slider_tracks.
  cbn [_enable_crosshair_cursor cursor.enable_crosshair_cursor log _state
       _widget capturing].
  destruct Hcase as [[E ->] | [_ ->]].
  - rewrite Hs, Hl0, Hc0, <- E, Hsl0.
    split; [left; reflexivity|]. split; [repeat split; assumption|].
    split; [exact Hb|]. left. split; reflexivity.
  - destruct (slider_assign_changed 50 W) as (Hs' & Hv' & Hd' & Hc' & Hl').
    assert (Hu' : updating (_state (_handle_amp_change 50
                                      (set_slider_value 50 W))) = false)
      by (rewrite Hs', Hs; reflexivity).
    rewrite Hv', Hd', Hc', Hc0.
    split; [left; rewrite Hs', Hs; reflexivity|].
    split; [repeat split; try assumption; apply idle_label; assumption|].
    split; [exact Hb|]. right. rewrite Hs'. reflexivity.
Qed.

Lemma click_inv (event : MouseEvent) (w : World) :
  session_inv w -> session_inv (_handle_slice_click event w).
Proof.
  intros (Hm & Hi & Ht).
  destruct (click_any_spec w event) as (_ & _ & (Hmd & Ha & Hsl & _)).
  split; [|split].
  - unfold valid_mode. rewrite Hmd. exact Hm.
  - apply click_idle. exact Hi.
  - unfold slider_tracks in *. cbv zeta in *. rewrite Hsl, Ha. exact Ht.
Qed.

Lemma handle_inv (e : Event) (w : World) :
  session_inv w -> session_inv (handle e w).
Proof.
  destruct e; cbn [handle].
  - apply click_inv.
  - apply slider_assign_inv.
  - apply view_mode_change_inv.
  - apply reset_inv.
Qed.

Lemma init_inv : session_inv init.
Proof.
  split; [left; reflexivity|]. split; [repeat split|].
  unfold slider_tracks. cbv zeta.
  assert (Hv : value (amplitude_slider (_widget init)) = 50)
    by (vm_compute; reflexivity).
  rewrite Hv. split; [unfold slider_min, slider_max; lia|].
  left. split; reflexivity.
Qed.

Lemma run_inv (events : list Event) : session_inv (run events).
Proof.
  unfold run. generalize init_inv. generalize init.
  induction events as [|e events IH]; intros w Hw; [exact Hw|].
  cbn [fold_left]. apply IH, handle_inv, Hw.
Qed.



(** X6: after every event of a session the controller is idle again: the
    busy flag is false, the status label reads 'Ready.', the amplitude
    slider is enabled and the output widget has stopped capturing. *)
Theorem session_idle_between_events (events : list Event) :
  let w := run events in
  updating (_state w) = false /\ label_updating (_widget w) = "Ready." /\
  disabled (amplitude_slider (_widget w)) = false /\ capturing w = false.
Proof.
  intros w. destruct (run_inv events) as (_ & Hi & _). exact Hi.
Qed.

(** X7: throughout a session the slider shows the amplitude of the state:
    its value stays within 5 and 100 and equals
    [int(state['dipole_amplitude'] * 1e9)], the conversion [_init_widget]
    uses. *)
Theorem slider_shows_state_amplitude (events : list Event) :
  let w := run events in
  slider_min <= value (amplitude_slider (_widget w)) <= slider_max /\
  int_of_float (dipole_amplitude (_state w) * 1e9)%float =
    Some (value (amplitude_slider (_widget w))).
Proof.
  intros w. destruct (run_inv events) as (_ & _ & Ht). fold w in Ht.
  destruct Ht as (Hb & [[Ha Hv] | Ha]); (split; [exact Hb|]).
  - rewrite Ha, Hv. exact default_slider_value.
  - rewrite Ha. apply amplitude_round_trip. exact Hb.
Qed.

(** ** Reset, once more *)

(** X8: the reset handler always leaves the default record in every entry
    but the amplitude (dipoles unset, crosshair and slices at the origin,
    mode slice_browser, busy flag false), and the default record itself
    when the slider showed 50 before; markers and arrows are gone, the dipole
    labels read 'Not set', the slider shows 50, and no field is evaluated. *)
Theorem reset_restores_defaults (w : World) :
  let w' := _handle_reset_button_click w in
  set_dipole_amplitude (dipole_amplitude _init_state) (_state w') =
    _init_state /\
  (value (amplitude_slider (_widget w)) = 50 -> _state w' = _init_state) /\
  _markers w' = _init_markers /\
  fig_arrows (_widget w') = [] /\
  value (amplitude_slider (_widget w')) = 50 /\
  label_dipole_pos (_widget w') = "Not set" /\
  label_dipole_ori (_widget w') = "Not set" /\
  evaluations (calls_during _handle_reset_button_click w) = [].
Proof.
  intros w'. subst w'.
  destruct (reset_shape w) as (Hs & Hm & Ha & Hv & Hp & Ho & _).
  split; [|split; [|repeat split; try assumption; apply reset_no_evaluation]].
  - rewrite Hs. destruct (50 =? _); reflexivity.
  - intros E. rewrite Hs, E. reflexivity.
Qed.

Lemma reset_restores_defaults_witness :
  value (amplitude_slider (_widget w_evaluated)) = 50 /\
  _state (_handle_reset_button_click w_evaluated) = _init_state.
Proof.
  assert (H : value (amplitude_slider (_widget w_evaluated)) = 50)
    by (vm_compute; reflexivity).
  split; [exact H|].
  exact (proj1 (proj2 (reset_restores_defaults w_evaluated)) H).
Defined.

(** X9: a second reset right after a reset always ends in the exact default
    record: the first one has put the slider at 50, so the second assignment
    changes nothing and the observer stays asleep. *)
Theorem reset_twice_is_exact (w : World) :
  _state (_handle_reset_button_click (_handle_reset_button_click w)) =
  _init_state.
Proof.
  destruct (reset_shape w) as (_ & _ & _ & Hv & _).
  destruct (reset_shape (_handle_reset_button_click w)) as (Hs & _).
  rewrite Hs, Hv. reflexivity.
Qed.

(** ** The output widget *)

(** X10: after any slice click the output widget holds what the calls of that
    click printed and nothing older, and it has stopped capturing; what an
    amplitude change evaluates outside a capture never reaches it. *)
Theorem output_widget_holds_last_click (w : World) :
  (forall event,
     output (_handle_slice_click event w) =
       map call (calls_during (_handle_slice_click event) w) /\
     capturing (_handle_slice_click event w) = false) /\
  (forall new,
     capturing w = false -> output (_handle_amp_change new w) = output w).
Proof.
  split.
  - intros event. destruct (click_any_spec w event) as (Ho & Hc & _).
    split; assumption.
  - intros new Hc.
    destruct (amp_change_more new w) as (_ & (_ & Ho & _) & _).
    rewrite Ho, Hc. reflexivity.
Qed.

Lemma output_widget_witness :
  capturing w_evaluated = false /\
  output (_handle_amp_change 70 w_evaluated) = output w_evaluated.
Proof.
  assert (H : capturing w_evaluated = false) by (vm_compute; reflexivity).
  split; [exact H|].
  exact (proj2 (output_widget_holds_last_click w_evaluated) 70 H).
Defined.

(** ** Evaluations per event *)

Lemma slider_assign_evaluations (v : Z) (w : World) :
  (Datatypes.length
     (evaluations (calls_during (amplitude_slider_assign v) w)) <= 1)%nat.
Proof.
  unfold calls_during.
  destruct (slider_assign_cases v w) as (_ & [[_ ->] | [_ ->]]).
  - rewrite skipn_all. cbn. lia.
  - rewrite (proj2 (proj2 (proj2 (amp_change_shape _ _)))).
    change (trace (set_slider_value _ w)) with (trace w).
    rewrite skipn_app_exact.
    destruct (dipole_ready _); cbn; lia.
Qed.

(** X11: no event makes the controller evaluate the field more than once; a
    mode change and a reset evaluate nothing. *)
Theorem at_most_one_evaluation_per_event (e : Event) (w : World) :
  (Datatypes.length (evaluations (calls_during (handle e) w)) <= 1)%nat /\
  (forall new_mode,
     evaluations (calls_during (handle (ViewModeChange new_mode)) w) = []) /\
  evaluations (calls_during (handle ResetClick) w) = [].
Proof.
  split; [|split].
  - destruct e as [event | new | new_mode |].
    + change (handle (SliceClick event)) with (_handle_slice_click event).
      destruct (click_cases w event) as [[Hc _] | [Hb [in_ax Hin]]].
      * rewrite Hc. cbn. lia.
      * rewrite (click_inside_evaluations w event in_ax Hb Hin).
        destruct (dipole_ready _); cbn; lia.
    + apply slider_assign_evaluations.
    + change (handle (ViewModeChange new_mode))
        with (_handle_view_mode_change new_mode).
      rewrite calls_during_none by apply view_mode_change_frame. cbn. lia.
    + change (handle ResetClick) with _handle_reset_button_click.
      rewrite reset_no_evaluation. cbn. lia.
  - intros new_mode.
    change (handle (ViewModeChange new_mode))
      with (_handle_view_mode_change new_mode).
    rewrite calls_during_none by apply view_mode_change_frame. reflexivity.
  - apply reset_no_evaluation.
Qed.

(** ** The selector, once more *)

(** X12: a selector value that is none of the three options is ignored: the
    [if]/[elif] chain of [_set_view_mode] has no [else], and the controller is
    left exactly as it was. *)
Theorem unknown_option_ignored (w : World) (new_mode : string)
    (H1 : new_mode <> "Slice Browser")
    (H2 : new_mode <> "Set Dipole Origin")
    (H3 : new_mode <> "Set Dipole Orientation") :
  _handle_view_mode_change new_mode w = w.
Proof.
  unfold _handle_view_mode_change, _set_view_mode.
  apply String.eqb_neq in H1, H2, H3. rewrite H1, H2, H3. reflexivity.
Qed.

Lemma unknown_option_ignored_witness :
  _handle_view_mode_change "slice_browser" w_evaluated = w_evaluated.
Proof.
  apply unknown_option_ignored; discriminate.
Defined.

(** X13: the last selection wins: after any earlier selector value, choosing
    one of the three options leaves the controller as if only that option
    had been chosen. *)
Theorem last_selection_wins (w : World) (earlier option : string)
    (H : In option
           ["Slice Browser"; "Set Dipole Origin"; "Set Dipole Orientation"]) :
  _handle_view_mode_change option (_handle_view_mode_change earlier w) =
  _handle_view_mode_change option w.
Proof.
  unfold _handle_view_mode_change, _set_view_mode.
  destruct H as [<- | [<- | [<- | []]]]; cbn [String.eqb Ascii.eqb Bool.eqb];
    destruct (earlier =? "Slice Browser")%string;
    try destruct (earlier =? "Set Dipole Origin")%string;
    try destruct (earlier =? "Set Dipole Orientation")%string;
    reflexivity.
Qed.

Lemma last_selection_wins_witness :
  _handle_view_mode_change "Set Dipole Origin"
    (_handle_view_mode_change "Set Dipole Orientation" init) =
  _handle_view_mode_change "Set Dipole Origin" init.
Proof.
  apply last_selection_wins. right. left. reflexivity.
Defined.

(** ** Markers and arrows *)

(** X14: [_plot_dipole_markers_and_arrow] leaves the state alone and draws
    the arrows only together with both markers: whenever it calls
    [draw_dipole_arrows] it has called [plot_dipole_pos_marker] and
    [plot_dipole_ori_marker] before, in this order. *)
Theorem arrows_only_with_both_markers (w : World) :
  let cs := map call (calls_during _plot_dipole_markers_and_arrow w) in
  _state (_plot_dipole_markers_and_arrow w) = _state w /\
  (In c_draw_dipole_arrows cs ->
   cs = [c_plot_dipole_pos_marker; c_plot_dipole_ori_marker;
         c_draw_dipole_arrows]).
Proof.
  intros cs. split; [apply markers_stage_state|].
  assert (E : cs = marker_calls (_state w)).
  { subst cs. apply calls_of_logs. apply markers_stage_logs. }
  rewrite E. unfold marker_calls, dipole_ready.
  destruct (is_not_None (dx (dipole_pos (_state w))));
    destruct (is_not_None (dx (dipole_ori (_state w))));
    destruct (dict_ne (dipole_pos (_state w)) (dipole_ori (_state w)));
    cbn; intros H; try reflexivity;
    repeat match goal with
           | H : _ \/ _ |- _ => destruct H
           | H : False |- _ => destruct H
           end; discriminate.
Qed.

Lemma arrows_only_with_both_markers_witness :
  map call (calls_during _plot_dipole_markers_and_arrow w_evaluated) =
  [c_plot_dipole_pos_marker; c_plot_dipole_ori_marker; c_draw_dipole_arrows].
Proof.
  apply (proj2 (arrows_only_with_both_markers w_evaluated)).
  vm_compute. right. right. left. reflexivity.
Defined.

(** ** The clicked view *)

(** X15: the loop over [widget['fig']] stops at the slice figure that was
    clicked and yields its axis; for an axes of any other figure it runs to
    the end and yields the last key, z, so such a click would be read as a
    click in the axial view. *)
Theorem clicked_axis_finds_view :
  (forall a start, clicked_axis fig_keys (slice_fig a) start = a) /\
  (forall n start, clicked_axis fig_keys (other_fig n) start = AxZ).
Proof.
  split.
  - intros [] start; reflexivity.
  - intros n start. reflexivity.
Qed.

(** ** Order of effects *)

(** X16: the evaluation an amplitude change triggers already sees the new
    amplitude: the state handed to [plot_evoked] carries
    [float(new) * 1e-9], with position and orientation as they were and the
    busy flag toggled. *)
Theorem amp_change_evaluates_new_amplitude (w : World) (new : Z) (e : Entry)
    (H : In e (evaluations (calls_during (_handle_amp_change new) w))) :
  dipole_amplitude (at_state e) = (float_of_int new * 1e-9)%float /\
  dipole_pos (at_state e) = dipole_pos (_state w) /\
  dipole_ori (at_state e) = dipole_ori (_state w) /\
  updating (at_state e) = negb (updating (_state w)).
Proof.
  rewrite amp_change_calls in H.
  destruct (dipole_ready (_state w)); [|destruct H].
  destruct H as [<- | []]. repeat split.
Qed.

Lemma amp_change_evaluates_new_amplitude_witness :
  exists e,
    In e (evaluations (calls_during (_handle_amp_change 70) w_evaluated)) /\
    dipole_amplitude (at_state e) = (float_of_int 70 * 1e-9)%float.
Proof.
  assert (H : In (mkEntry c_plot_evoked
                    (set_dipole_amplitude (float_of_int 70 * 1e-9)%float
                       (set_updating true (_state w_evaluated))))
                (evaluations
                   (calls_during (_handle_amp_change 70) w_evaluated))).
  { rewrite amp_change_calls.
    rewrite (ready_dipole_ready _ w_evaluated_ready).
    assert (E : updating (_state w_evaluated) = false)
      by (vm_compute; reflexivity).
    rewrite E. left. reflexivity. }
  eexists. split; [exact H|].
  exact (proj1 (amp_change_evaluates_new_amplitude w_evaluated 70 _ H)).
Defined.

(** X17: whatever the state and the slider, the reset handler makes the same
    eight calls in the same order: the arrows and both kinds of markers are
    removed while the old state is still in place, then the three slices are
    redrawn and the topomaps reset with the fresh state, and the crosshair
    cursor is enabled last; the slider's observer, when it runs, adds no
    call. *)
Theorem reset_call_order (w : World) :
  map call (calls_during _handle_reset_button_click w) =
    [c_remove_dipole_arrows; c_remove_dipole_pos_markers;
     c_remove_dipole_ori_markers; c_plot_slice AxX; c_plot_slice AxY;
     c_plot_slice AxZ; c_reset_topomaps; c_enable_crosshair_cursor] /\
  map at_state (firstn 3 (calls_during _handle_reset_button_click w)) =
    [_state w; _state w; _state w] /\
  map at_state
    (firstn 4 (skipn 3 (calls_during _handle_reset_button_click w))) =
    [_init_state; _init_state; _init_state; _init_state].
Proof.
  destruct (reset_shape w) as (_ & _ & _ & _ & _ & _ & Hc).
  rewrite Hc. repeat split.
Qed.


(** * The handlers statement by statement *)

(** The worlds a handler passes through: the world after each of its
    statements, in order. *)
Fixpoint passes (statements : list (World -> World)) (w : World)
    : list World :=
  match statements with
  | [] => []
  | f :: rest => f w :: passes rest (f w)
  end.

(** The world the statements end in. *)
Definition run_statements (statements : list (World -> World)) (w : World)
    : World :=
  fold_left (fun w f => f w) statements w.

(** The busy flag of a world. *)
Definition busy_at (v : World) : bool := updating (_state v).

(** [_handle_amp_change], lines 253, 258, 260-261, 263-272, 273 and 274. *)
Definition amp_change_statements (new : Z) : list (World -> World) :=
  [_toggle_updating_state;
   set_slider_disabled true;
   (fun w =>
      with_state
        (set_dipole_amplitude (float_of_int new * 1e-9)%float (_state w)) w);
   evoked_stage;
   _toggle_updating_state;
   set_slider_disabled false].

(** [_handle_slice_click] for a left click inside an axes: the decorator
    clears the output widget and enters its [with] block; lines 196,
    214-228, 230, 231, 233-242 and 244; the [with] block is left. *)
Definition click_inside_statements (x y : Q) (x_idx y_idx axis : Axis)
    : list (World -> World) :=
  [with_output [] true;
   _toggle_updating_state;
   mode_callback x y x_idx y_idx axis;
   _plot_dipole_markers_and_arrow;
   _enable_crosshair_cursor;
   evoked_stage;
   _toggle_updating_state;
   (fun w => with_output (output w) false w)].

(** [_handle_slice_click] for a left click outside every axes: the
    decorator as before, lines 196 and 200. *)
Definition click_outside_statements : list (World -> World) :=
  [with_output [] true;
   _toggle_updating_state;
   _toggle_updating_state;
   (fun w => with_output (output w) false w)].

(** The statements a left click runs. *)
Definition left_click_statements (event : MouseEvent)
    : list (World -> World) :=
  match inaxes event with
  | None => click_outside_statements
  | Some in_ax =>
      let axis := clicked_axis fig_keys (figure in_ax) AxX in
      let '(x_idx, y_idx) := slice.get_axis_names_from_slice axis fig_keys in
      click_inside_statements (xdata event) (ydata event) x_idx y_idx axis
  end.

(** The world once [_handle_amp_change] has written the amplitude (line
    261), its third statement. *)
Definition amp_change_written (new : Z) (w : World) : World :=
  let w := _toggle_updating_state w in
  let w := set_slider_disabled true w in
  with_state
    (set_dipole_amplitude (float_of_int new * 1e-9)%float (_state w)) w.

Lemma amp_change_statements_run (new : Z) (w : World) :
  run_statements (amp_change_statements new) w = _handle_amp_change new w.
Proof. reflexivity. Qed.

Lemma left_click_statements_run (event : MouseEvent) (w : World) :
  button event = LEFT ->
  run_statements (left_click_statements event) w =
  _handle_slice_click event w.
Proof.
  intros Hb. unfold left_click_statements.
  destruct (inaxes event) as [in_ax|] eqn:Hin.
  - destruct (slice.get_axis_names_from_slice
                (clicked_axis fig_keys (figure in_ax) AxX) fig_keys)
      as [x_idx y_idx] eqn:Hax.
    rewrite (click_inside_unfold w event in_ax x_idx y_idx Hb Hin Hax).
    reflexivity.
  - rewrite (click_outside_shape w event Hb Hin).
    destruct w as [[? ? ? ? ? ? ? ? u] g m o c t]. destruct u; reflexivity.
Qed.

Lemma evoked_stage_state (w : World) : _state (evoked_stage w) = _state w.
Proof. apply evoked_stage_logs. Qed.

Lemma toggle_busy_at (w : World) :
  busy_at (_toggle_updating_state w) = negb (busy_at w).
Proof. unfold busy_at. rewrite toggle_state. reflexivity. Qed.

(** The bracket of the amplitude handler: the flag after each of its six
    statements, and what the state is where the flag is false. *)
Lemma amp_change_bracket (new : Z) (w : World) :
  busy_at w = false ->
  let through := passes (amp_change_statements new) w in
  map busy_at through = [true; true; true; true; false; false] /\
  forall v, In v through -> busy_at v = false ->
            _state v = _state (_handle_amp_change new w).
Proof.
  intros Hidle through. subst through.
  unfold amp_change_statements. cbn [passes].
  set (w1 := _toggle_updating_state w).
  set (w2 := set_slider_disabled true w1).
  set (w3 := with_state
               (set_dipole_amplitude (float_of_int new * 1e-9)%float
                  (_state w2)) w2).
  set (w4 := evoked_stage w3).
  set (w5 := _toggle_updating_state w4).
  set (w6 := set_slider_disabled false w5).
  assert (B1 : busy_at w1 = true)
    by (subst w1; rewrite toggle_busy_at, Hidle; reflexivity).
  assert (B2 : busy_at w2 = true) by exact B1.
  assert (B3 : busy_at w3 = true) by exact B1.
  assert (B4 : busy_at w4 = true)
    by (unfold busy_at; subst w4; rewrite evoked_stage_state; exact B3).
  assert (B5 : busy_at w5 = false)
    by (subst w5; rewrite toggle_busy_at, B4; reflexivity).
  assert (B6 : busy_at w6 = false) by exact B5.
  assert (F : _handle_amp_change new w = w6) by reflexivity.
  rewrite F. clearbody w1 w2 w3 w4 w5.
  split.
  - cbn [map]. rewrite B1, B2, B3, B4, B5, B6. reflexivity.
  - intros v [<- | [<- | [<- | [<- | [<- | [<- | []]]]]]] Hv;
      try congruence; reflexivity.
Qed.

(** The bracket of a left click inside an axes. *)
Lemma click_inside_bracket (x y : Q) (x_idx y_idx axis : Axis) (w : World) :
  busy_at w = false ->
  let statements := click_inside_statements x y x_idx y_idx axis in
  let through := passes statements w in
  map busy_at through =
    [false; true; true; true; true; true; false; false] /\
  forall v, In v through -> busy_at v = false ->
            _state v = _state w \/
            _state v = _state (run_statements statements w).
Proof.
  intros Hidle statements through. subst through statements.
  unfold click_inside_statements, run_statements. cbn [passes fold_left].
  set (w0 := with_output [] true w).
  set (w1 := _toggle_updating_state w0).
  set (w2 := mode_callback x y x_idx y_idx axis w1).
  set (w3 := _plot_dipole_markers_and_arrow w2).
  set (w4 := _enable_crosshair_cursor w3).
  set (w5 := evoked_stage w4).
  set (w6 := _toggle_updating_state w5).
  set (w7 := with_output (output w6) false w6).
  assert (B0 : busy_at w0 = false) by exact Hidle.
  assert (B1 : busy_at w1 = true)
    by (subst w1; rewrite toggle_busy_at, B0; reflexivity).
  assert (B2 : busy_at w2 = true)
    by (unfold busy_at; subst w2;
        rewrite (proj2 (mode_callback_keeps _ _ _ _ _ _)); exact B1).
  assert (B3 : busy_at w3 = true)
    by (unfold busy_at; subst w3; rewrite markers_stage_state; exact B2).
  assert (B4 : busy_at w4 = true) by exact B3.
  assert (B5 : busy_at w5 = true)
    by (unfold busy_at; subst w5; rewrite evoked_stage_state; exact B4).
  assert (B6 : busy_at w6 = false)
    by (subst w6; rewrite toggle_busy_at, B5; reflexivity).
  assert (B7 : busy_at w7 = false) by exact B6.
  assert (S0 : _state w0 = _state w) by reflexivity.
  assert (S7 : _state w6 = _state w7) by reflexivity.
  clearbody w0 w1 w2 w3 w4 w5 w6 w7.
  split.
  - cbn [map]. rewrite B0, B1, B2, B3, B4, B5, B6, B7. reflexivity.
  - intros v [<- | [<- | [<- | [<- | [<- | [<- | [<- | [<- | []]]]]]]]] Hv;
      try congruence; [left; exact S0 | right; exact S7 | right; reflexivity].
Qed.

(** The bracket of a left click outside every axes. *)
Lemma click_outside_bracket (w : World) :
  busy_at w = false ->
  let through := passes click_outside_statements w in
  map busy_at through = [false; true; false; false] /\
  forall v, In v through -> busy_at v = false -> _state v = _state w.
Proof.
  intros Hidle through. subst through.
  unfold click_outside_statements. cbn [passes].
  set (w0 := with_output [] true w).
  set (w1 := _toggle_updating_state w0).
  set (w2 := _toggle_updating_state w1).
  set (w3 := with_output (output w2) false w2).
  assert (B0 : busy_at w0 = false) by exact Hidle.
  assert (B1 : busy_at w1 = true)
    by (subst w1; rewrite toggle_busy_at, B0; reflexivity).
  assert (B2 : busy_at w2 = false)
    by (subst w2; rewrite toggle_busy_at, B1; reflexivity).
  assert (B3 : busy_at w3 = false) by exact B2.
  assert (S2 : _state w2 = _state w)
    by (subst w2 w1; rewrite toggle_twice_state; reflexivity).
  assert (S3 : _state w3 = _state w) by exact S2.
  assert (S0 : _state w0 = _state w) by reflexivity.
  clearbody w0 w1 w2 w3.
  split.
  - cbn [map]. rewrite B0, B1, B2, B3. reflexivity.
  - intros v [<- | [<- | [<- | [<- | []]]]] Hv; try congruence.
Qed.

(** ** The bracket of the busy flag *)

(** C3 as stated fails, on three counts.  The reset handler makes its
    collaborator calls with the busy flag false: it has no toggle of its
    own.  The amplitude handler, which has, clears the flag with its last
    toggle and only then re-enables the slider: the flag is not true in
    every world it passes through before it returns.  And while the flag is
    true the state does change: the amplitude handler writes the new
    amplitude between its two toggles. *)
Lemma busy_flag_not_held_throughout :
  ~ (forall w : World,
       updating (_state w) = false ->
       forall e, In e (calls_during _handle_reset_button_click w) -> busy e) /\
  ~ (forall (w : World) (new : Z),
       updating (_state w) = false ->
       Forall (fun v => busy_at v = true)
         (removelast (passes (amp_change_statements new) w))) /\
  ~ (forall (w : World) (new : Z) (v : World),
       updating (_state w) = false ->
       In v (passes (amp_change_statements new) w) -> busy_at v = true ->
       set_updating false (_state v) = _state w).
Proof.
  split; [|split].
  - intros claim.
    specialize (claim init eq_refl).
    destruct (reset_shape init) as (_ & _ & _ & _ & _ & _ & Hc).
    rewrite Hc in claim.
    specialize (claim _ (or_introl eq_refl)).
    discriminate claim.
  - intros claim.
    specialize (claim init 70 eq_refl).
    unfold amp_change_statements in claim.
    cbn [passes removelast] in claim.
    do 4 (apply Forall_cons_iff in claim; destruct claim as [_ claim]).
    apply Forall_cons_iff in claim. destruct claim as [claim _].
    vm_compute in claim. discriminate claim.
  - intros claim.
    specialize (claim init 70 (amp_change_written 70 init) eq_refl).
    assert (Hin : In (amp_change_written 70 init)
                    (passes (amp_change_statements 70) init))
      by (right; right; left; reflexivity).
    assert (Hb : busy_at (amp_change_written 70 init) = true)
      by (vm_compute; reflexivity).
    specialize (claim Hin Hb).
    apply (f_equal (fun s => PrimFloat.eqb (dipole_amplitude s) 50e-9)) in claim.
    vm_compute in claim. discriminate claim.
Qed.

(** C3, as the code has it.  Entered with the busy flag false, the
    slice-click handler on a left click and the amplitude handler bracket
    their work with the flag: it is true after the first toggle and after
    every statement that follows, until the last toggle clears it; every
    collaborator call is made with it true, and the handler returns with the
    flag false and the label 'Ready.'.
    Where the flag is false while such a handler runs, the state is the one
    the handler was entered with or the one it returns, so nothing half done
    shows with the flag false.  Outside the bracket lie only the decorator's
    clearing and leaving of the output capture around a click and the
    re-enabling of the slider after the amplitude handler's last toggle.  A
    click with another button and the mode-change handler make no call and
    leave the flag false; the reset handler makes each of its calls with the
    flag false and returns with it false. *)
Theorem busy_flag_brackets_click_and_amp_change (w : World)
    (Hidle : updating (_state w) = false) :
  (forall event,
     button event = LEFT ->
     let statements := left_click_statements event in
     run_statements statements w = _handle_slice_click event w /\
     map busy_at (passes statements w) =
       ([false] ++ repeat true (Datatypes.length statements - 3) ++
        [false; false])%list /\
     (forall v,
        In v (passes statements w) -> busy_at v = false ->
        _state v = _state w \/
        _state v = _state (_handle_slice_click event w)) /\
     Forall busy (calls_during (_handle_slice_click event) w) /\
     updating (_state (_handle_slice_click event w)) = false /\
     label_updating (_widget (_handle_slice_click event w)) = "Ready.") /\
  (forall new,
     let statements := amp_change_statements new in
     run_statements statements w = _handle_amp_change new w /\
     map busy_at (passes statements w) =
       (repeat true (Datatypes.length statements - 2) ++ [false; false])%list /\
     (forall v,
        In v (passes statements w) -> busy_at v = false ->
        _state v = _state (_handle_amp_change new w)) /\
     Forall busy (calls_during (_handle_amp_change new) w) /\
     updating (_state (_handle_amp_change new w)) = false /\
     label_updating (_widget (_handle_amp_change new w)) = "Ready.") /\
  (forall event,
     button event <> LEFT ->
     calls_during (_handle_slice_click event) w = [] /\
     updating (_state (_handle_slice_click event w)) = false) /\
  (forall new_mode,
     calls_during (_handle_view_mode_change new_mode) w = [] /\
     updating (_state (_handle_view_mode_change new_mode w)) = false) /\
  (Forall (fun e => updating (at_state e) = false)
     (calls_during _handle_reset_button_click w) /\
   updating (_state (_handle_reset_button_click w)) = false).
Proof.
  split; [|split; [|split; [|split]]].
  - intros event Hb statements.
    assert (Hfin : Forall busy (calls_during (_handle_slice_click event) w) /\
                   updating (_state (_handle_slice_click event w)) = false).
    { destruct (click_cases w event) as [[Hc Hs] | [_ [in_ax Hin]]].
      - rewrite Hc, Hs. split; [constructor | exact Hidle].
      - destruct (click_inside_shape w event in_ax Hb Hin)
          as (pre & Hc & Hpre & Hu & _).
        split; [|rewrite Hu; exact Hidle].
        rewrite Hc, Hidle. apply Forall_app. split.
        + rewrite Hidle in Hpre.
          eapply Forall_impl; [|exact Hpre]. intros e [_ He]. exact He.
        + destruct (dipole_ready _); constructor; [reflexivity | constructor]. }
    destruct Hfin as [Hf Hu].
    pose proof (left_click_statements_run event w Hb) as Hrun.
    fold statements in Hrun.
    split; [exact Hrun|].
    split; [|split; [|split; [exact Hf | split; [exact Hu|]]]].
    + subst statements. unfold left_click_statements.
      destruct (inaxes event) as [in_ax|].
      * destruct (slice.get_axis_names_from_slice _ _) as [x_idx y_idx].
        apply click_inside_bracket. exact Hidle.
      * apply click_outside_bracket. exact Hidle.
    + rewrite <- Hrun. subst statements. unfold left_click_statements.
      destruct (inaxes event) as [in_ax|].
      * destruct (slice.get_axis_names_from_slice _ _) as [x_idx y_idx].
        apply click_inside_bracket. exact Hidle.
      * intros v Hv Hb'. left.
        apply (proj2 (click_outside_bracket w Hidle) v Hv Hb').
    + apply idle_label; [apply click_left_label; exact Hb | exact Hu].
  - intros new statements.
    destruct (amp_change_shape new w) as (Hs & _ & Hl & _).
    assert (Hu : updating (_state (_handle_amp_change new w)) = false)
      by (rewrite Hs; exact Hidle).
    split; [apply amp_change_statements_run|].
    split; [apply (amp_change_bracket new w Hidle)|].
    split; [apply (amp_change_bracket new w Hidle)|].
    split; [|split; [exact Hu | apply idle_label; assumption]].
    rewrite amp_change_calls, Hidle.
    destruct (dipole_ready _); constructor; [reflexivity | constructor].
  - intros event Hn. rewrite (click_not_left_shape w event Hn).
    split; [|exact Hidle]. apply calls_during_none.
    rewrite (click_not_left_shape w event Hn). reflexivity.
  - intros new_mode. destruct (view_mode_change_frame new_mode w) as [Ht Hu].
    split; [apply calls_during_none; exact Ht | rewrite Hu; exact Hidle].
  - destruct (reset_shape w) as (Hs & _ & _ & _ & _ & _ & Hc).
    assert (Hu : updating (_state (_handle_reset_button_click w)) = false)
      by (rewrite Hs; destruct (50 =? _); reflexivity).
    split; [|exact Hu]. rewrite Hc.
    repeat (constructor; [first [exact Hidle | exact Hu | reflexivity]|]).
    constructor.
Qed.

Lemma busy_flag_witness :
  updating (_state w_evaluated) = false /\
  map busy_at (passes (amp_change_statements 70) w_evaluated) =
    [true; true; true; true; false; false] /\
  Forall busy (calls_during (_handle_amp_change 70) w_evaluated) /\
  updating (_state (_handle_amp_change 70 w_evaluated)) = false /\
  label_updating (_widget (_handle_amp_change 70 w_evaluated)) = "Ready.".
Proof.
  assert (H : updating (_state w_evaluated) = false)
    by (vm_compute; reflexivity).
  split; [exact H|].
  destruct (proj1 (proj2 (busy_flag_brackets_click_and_amp_change
                            w_evaluated H)) 70)
    as (_ & Hp & _ & Hf & Hu & Hl).
  exact (conj Hp (conj Hf (conj Hu Hl))).
Defined.

(** ** The readiness test of a click reads the state the click has written *)

(** The state a left click inside an axes leaves: the one its mode callback
    wrote, with the busy flag as the handler found it. *)
Lemma click_inside_state (x y : Q) (x_idx y_idx axis : Axis) (w : World) :
  _state (click_inside_chain x y x_idx y_idx axis w) =
  set_updating (updating (_state w))
    (_state (mode_callback x y x_idx y_idx axis
               (_toggle_updating_state (with_output [] true w)))).
Proof.
  unfold click_inside_chain.
  set (w0 := with_output [] true w).
  set (w1 := _toggle_updating_state w0).
  set (w2 := mode_callback x y x_idx y_idx axis w1).
  set (w3 := _plot_dipole_markers_and_arrow w2).
  set (w4 := _enable_crosshair_cursor w3).
  set (w5 := evoked_stage w4).
  set (w6 := _toggle_updating_state w5).
  set (w7 := with_output (output w6) false w6).
  assert (U1 : updating (_state w1) = negb (updating (_state w)))
    by (subst w1; rewrite toggle_state; reflexivity).
  assert (U2 : updating (_state w2) = negb (updating (_state w)))
    by (subst w2; rewrite (proj2 (mode_callback_keeps _ _ _ _ _ _)); exact U1).
  assert (S3 : _state w3 = _state w2) by apply markers_stage_state.
  assert (S4 : _state w4 = _state w3) by reflexivity.
  assert (S5 : _state w5 = _state w4) by apply evoked_stage_state.
  assert (S6 : _state w6 = set_updating (negb (updating (_state w5)))
                             (_state w5)) by apply toggle_state.
  assert (S7 : _state w7 = _state w6) by reflexivity.
  clearbody w0 w1 w2 w3 w4 w5 w6 w7.
  rewrite S7, S6, S5, S4, S3, U2, Bool.negb_involutive. reflexivity.
Qed.

(** The mode callback writes at most the point of its mode. *)
Lemma mode_callback_other_point (x y : Q) (x_idx y_idx axis : Axis)
    (w : World) :
  (mode (_state w) <> "set_dipole_ori" ->
   dipole_ori (_state (mode_callback x y x_idx y_idx axis w)) =
     dipole_ori (_state w)) /\
  (mode (_state w) <> "set_dipole_pos" ->
   dipole_pos (_state (mode_callback x y x_idx y_idx axis w)) =
     dipole_pos (_state w)).
Proof.
  unfold mode_callback.
  destruct (String.eqb_spec (mode (_state w)) "slice_browser") as [E1|N1];
    [split; reflexivity|].
  destruct (String.eqb_spec (mode (_state w)) "set_dipole_pos") as [E2|N2];
    [split; [reflexivity | intros N; contradiction]|].
  destruct (String.eqb_spec (mode (_state w)) "set_dipole_ori") as [E3|N3];
    [split; [intros N; contradiction | reflexivity]|].
  split; reflexivity.
Qed.

(** So a click leaves the point its mode does not write as it found it. *)
Lemma click_other_point (w : World) (event : MouseEvent) :
  (mode (_state w) <> "set_dipole_ori" ->
   dipole_ori (_state (_handle_slice_click event w)) =
     dipole_ori (_state w)) /\
  (mode (_state w) <> "set_dipole_pos" ->
   dipole_pos (_state (_handle_slice_click event w)) =
     dipole_pos (_state w)).
Proof.
  destruct (click_cases w event) as [[_ Hs] | [Hb [in_ax Hin]]].
  - rewrite Hs. split; reflexivity.
  - destruct (slice.get_axis_names_from_slice
                (clicked_axis fig_keys (figure in_ax) AxX) fig_keys)
      as [x_idx y_idx] eqn:Hax.
    rewrite (click_inside_unfold w event in_ax x_idx y_idx Hb Hin Hax).
    rewrite click_inside_state.
    set (w1 := _toggle_updating_state (with_output [] true w)).
    assert (M1 : mode (_state w1) = mode (_state w))
      by (subst w1; rewrite toggle_state; reflexivity).
    assert (P1 : dipole_pos (_state w1) = dipole_pos (_state w))
      by (subst w1; rewrite toggle_state; reflexivity).
    assert (O1 : dipole_ori (_state w1) = dipole_ori (_state w))
      by (subst w1; rewrite toggle_state; reflexivity).
    clearbody w1.
    destruct (mode_callback_other_point (xdata event) (ydata event)
                x_idx y_idx (clicked_axis fig_keys (figure in_ax) AxX) w1)
      as [Ho Hp].
    rewrite M1 in Ho, Hp.
    split; intros N; cbn [dipole_ori dipole_pos set_updating].
    + rewrite <- O1. apply Ho, N.
    + rewrite <- P1. apply Hp, N.
Qed.

(** Why the points are taken fully set or unset: the test reads the x
    entries only.  With only x set in each point, and the two x different,
    the amplitude handler evaluates the field. *)
Lemma readiness_test_reads_x_only :
  let partly :=
    with_state
      (set_dipole_ori (mkDict3 (Some (inject_Z 2)) None None)
         (set_dipole_pos (mkDict3 (Some (inject_Z 1)) None None) _init_state))
      init in
  ~ dipoles_wf (_state partly) /\
  Datatypes.length
    (evaluations (calls_during (_handle_amp_change 70) partly)) = 1%nat.
Proof.
  split.
  - intros [[H | H] _].
    + apply (H AxY). reflexivity.
    + specialize (H AxX). discriminate H.
  - vm_compute. reflexivity.
Qed.

(** C1 as stated fails for a click: with the position set and the
    orientation still unset, in mode set_dipole_ori, a left click in the
    sagittal view writes the orientation and the field is evaluated, in the
    same handler call.  The state is one a session reaches, its dipole points
    fully set or unset. *)
Lemma click_completing_the_pair_evaluates :
  ~ (forall (w : World) (event : MouseEvent),
       dipoles_wf (_state w) -> unset_or_equal (_state w) ->
       evaluations (calls_during (_handle_slice_click event) w) = []).
Proof.
  intros claim.
  assert (Hu : unset_or_equal (_state w_before_orientation))
    by (right; left; intros []; vm_compute; reflexivity).
  specialize (claim w_before_orientation (click LEFT (Some AxX) 7 8)
                w_before_orientation_wf Hu).
  apply (f_equal (@Datatypes.length Entry)) in claim.
  vm_compute in claim. discriminate claim.
Qed.

(** C1, as the code has it: the field evaluation is called only in a state
    whose dipole position and orientation have all three coordinates set and
    are not coordinate-wise identical.  The state meant is the one the
    handler tests and hands to the evaluation: for an amplitude change the
    state of the event, for a click the state once the click's mode callback
    has written its update (the state the click leaves, busy flag apart).
    When one of the two is unset there, or the two are equal, neither handler
    calls the evaluation.  Of the state a click finds this much is enough: no
    evaluation in slice_browser mode when one is unset or the two are equal,
    none in any mode but set_dipole_ori when the orientation is unset, none
    in any mode but set_dipole_pos when the position is unset.  Dipole points
    are "3 scalars or unset", never partly set: the test reads the x entries
    only. *)
Theorem field_evaluation_only_when_ready (w : World)
    (Hwf : dipoles_wf (_state w)) :
  (forall new e,
     In e (evaluations (calls_during (_handle_amp_change new) w)) ->
     ready (at_state e) /\
     dipole_pos (at_state e) = dipole_pos (_state w) /\
     dipole_ori (at_state e) = dipole_ori (_state w)) /\
  (forall event e,
     In e (evaluations (calls_during (_handle_slice_click event) w)) ->
     ready (at_state e) /\
     dipole_pos (at_state e) =
       dipole_pos (_state (_handle_slice_click event w)) /\
     dipole_ori (at_state e) =
       dipole_ori (_state (_handle_slice_click event w))) /\
  (forall new,
     unset_or_equal (_state w) ->
     evaluations (calls_during (_handle_amp_change new) w) = []) /\
  (forall event,
     unset_or_equal (_state (_handle_slice_click event w)) ->
     evaluations (calls_during (_handle_slice_click event) w) = []) /\
  (forall event,
     mode (_state w) = "slice_browser" -> unset_or_equal (_state w) ->
     evaluations (calls_during (_handle_slice_click event) w) = []) /\
  (forall event,
     mode (_state w) <> "set_dipole_ori" -> unset (dipole_ori (_state w)) ->
     evaluations (calls_during (_handle_slice_click event) w) = []) /\
  (forall event,
     mode (_state w) <> "set_dipole_pos" -> unset (dipole_pos (_state w)) ->
     evaluations (calls_during (_handle_slice_click event) w) = []).
Proof.
  assert (Hpost : forall event,
            unset_or_equal (_state (_handle_slice_click event w)) ->
            evaluations (calls_during (_handle_slice_click event) w) = []).
  { intros event Hu.
    destruct (click_cases w event) as [[Hc _] | [Hb [in_ax Hin]]].
    - rewrite Hc. reflexivity.
    - rewrite (click_inside_evaluations w event in_ax Hb Hin).
      rewrite (unset_or_equal_not_ready _ Hu). reflexivity. }
  split; [|split; [|split; [|split; [|split; [|split]]]]].
  - intros new e He.
    pose proof (amp_change_calls new w) as Hc.
    rewrite Hc in He. destruct (dipole_ready (_state w)) eqn:Hr.
    + destruct He as [<- | []]. cbn [at_state].
      split; [|split; reflexivity].
      apply (dipole_ready_ready (_state w) Hwf Hr).
    + destruct He.
  - intros event e He.
    destruct (click_cases w event) as [[Hc _] | [Hb [in_ax Hin]]].
    + rewrite Hc in He. destruct He.
    + rewrite (click_inside_evaluations w event in_ax Hb Hin) in He.
      destruct (click_inside_shape w event in_ax Hb Hin)
        as (_ & _ & _ & _ & Hwf' & _).
      destruct (dipole_ready _) eqn:Hr; [|destruct He].
      destruct He as [<- | []]. cbn [at_state].
      split; [|split; reflexivity].
      apply (dipole_ready_ready _ (Hwf' Hwf) Hr).
  - intros new Hu.
    pose proof (amp_change_calls new w) as Hc.
    rewrite Hc, (unset_or_equal_not_ready _ Hu). reflexivity.
  - exact Hpost.
  - intros event Hm Hu.
    destruct (click_cases w event) as [[Hc _] | [Hb [in_ax Hin]]].
    + rewrite Hc. reflexivity.
    + rewrite (click_inside_evaluations w event in_ax Hb Hin).
      destruct (click_inside_shape w event in_ax Hb Hin)
        as (_ & _ & _ & _ & _ & Hf & _).
      destruct (Hf Hm) as (Hp & Ho & _).
      rewrite unset_or_equal_not_ready; [reflexivity|].
      unfold unset_or_equal. rewrite Hp, Ho. exact Hu.
  - intros event Hm Hu. apply Hpost. right; left.
    rewrite (proj1 (click_other_point w event) Hm). exact Hu.
  - intros event Hm Hu. apply Hpost. left.
    rewrite (proj2 (click_other_point w event) Hm). exact Hu.
Qed.

Lemma field_evaluation_only_when_ready_witness :
  dipoles_wf (_state w_before_orientation) /\
  (forall e,
     In e (evaluations
             (calls_during (_handle_slice_click (click LEFT (Some AxX) 7 8))
                w_before_orientation)) ->
     ready (at_state e)) /\
  evaluations (calls_during (_handle_amp_change 70) init) = [].
Proof.
  split; [exact w_before_orientation_wf|]. split.
  - intros e He.
    exact (proj1 (proj1 (proj2 (field_evaluation_only_when_ready
                                  w_before_orientation
                                  w_before_orientation_wf)) _ e He)).
  - exact (proj1 (proj2 (proj2 (field_evaluation_only_when_ready init init_wf)))
             70 init_unset).
Defined.
